(** * blinkist_free_dl: a shallow embedding of the daily-download script

    The script fetches one book, renders its text, downloads the audio of
    every chapter, tags it, and downloads the largest cover.  The embedding
    follows [blinkist_free_dl.py] function by function.  Python exceptions
    are a result type, the file system and the HTTP traffic are an explicit
    world that every effectful function threads through. *)

From Stdlib Require Import ZArith Ascii String List Bool Lia Permutation.
From Stdlib Require Import DecimalString DecimalZ DecimalPos.
From stdpp Require Import gmap strings list fin_maps fin_sets.

Local Open Scope Z_scope.

(** ** Python strings and values *)

Module Py.

(** The values the script passes to the tagger: [None] or a [str]. *)
Inductive pyval : Type :=
  | PyNone
  | PyStr (s : string).

(** Truth value of [if v:]: [None] and the empty string are falsy. *)
Definition truthy (v : pyval) : bool :=
  match v with
  | PyNone => false
  | PyStr EmptyString => false
  | PyStr (String _ _) => true
  end.

(** [str(n)] for an [int], as spliced into an f-string. *)
Definition str_int (n : Z) : string :=
  NilZero.string_of_int (Z.to_int n).

(** [c in chars] for a character and a string used as a character set. *)
Fixpoint char_in (c : ascii) (chars : string) : bool :=
  match chars with
  | EmptyString => false
  | String d rest => Ascii.eqb c d || char_in c rest
  end.

(** [s.rstrip(chars)]: drop the longest suffix made of characters that
    satisfy [p]. *)
Fixpoint rstrip_by (p : ascii -> bool) (s : string) : string :=
  match s with
  | EmptyString => EmptyString
  | String c rest =>
      match rstrip_by p rest with
      | EmptyString => if p c then EmptyString else String c EmptyString
      | kept => String c kept
      end
  end.

Definition rstrip (chars s : string) : string :=
  rstrip_by (fun c => char_in c chars) s.

(** [s.lstrip()] restricted to a character predicate. *)
Fixpoint lstrip_by (p : ascii -> bool) (s : string) : string :=
  match s with
  | EmptyString => EmptyString
  | String c rest => if p c then lstrip_by p rest else s
  end.

(** [s.split(sep)] for a one-character separator: never empty. *)
Fixpoint split (sep : ascii) (s : string) : list string :=
  match s with
  | EmptyString => [EmptyString]
  | String c rest =>
      if Ascii.eqb c sep then EmptyString :: split sep rest
      else match split sep rest with
           | [] => [String c EmptyString]
           | seg :: segs => String c seg :: segs
           end
  end.

(** [xs[-1]] on the result of [split], which has at least one element. *)
Definition last_item (xs : list string) : string :=
  List.last xs EmptyString.

(** [s.endswith(suffix)]. *)
Fixpoint endswith (s suffix : string) : bool :=
  String.eqb s suffix ||
  match s with
  | EmptyString => false
  | String _ rest => endswith rest suffix
  end.

(** [s.startswith(prefix)]. *)
Definition startswith (s pre : string) : bool := String.prefix pre s.

(** [needle in s] for strings. *)
Fixpoint contains (needle s : string) : bool :=
  String.prefix needle s ||
  match s with
  | EmptyString => false
  | String _ rest => contains needle rest
  end.

(** *** [int(s)]

    Base-ten parsing of text, as [int] applies it to a [str]: surrounding
    white space is ignored, one sign may lead, and single underscores may
    separate digits.  A character of a string stands for a code point below
    256, which is what a URL holds; among these the white space that [int]
    skips is 9-13, 32, 133 and 160, and the decimal digits are 0-9.  A text
    with more than [MAX_STR_DIGITS] digits is refused, as the interpreter
    does by default.  Every failure of [int] is a [ValueError]. *)

Definition is_space (c : ascii) : bool :=
  let n := nat_of_ascii c in
  ((9 <=? n) && (n <=? 13) || (n =? 32) || (n =? 133) || (n =? 160))%nat.

Definition is_digit (c : ascii) : bool :=
  let n := nat_of_ascii c in ((48 <=? n) && (n <=? 57))%nat.

Definition digit_value (c : ascii) : Z := Z.of_nat (nat_of_ascii c) - 48.

(** [seen] tells whether the previous character was a digit: an underscore
    needs a digit on both sides. *)
Fixpoint parse_digits (acc : Z) (seen : bool) (s : string) : option Z :=
  match s with
  | EmptyString => if seen then Some acc else None
  | String c rest =>
      if is_digit c then parse_digits (10 * acc + digit_value c) true rest
      else if Ascii.eqb c "_" && seen then parse_digits acc false rest
      else None
  end.

(** [sys.get_int_max_str_digits()], by default. *)
Definition MAX_STR_DIGITS : nat := 4300.

(** The digits of the text, underscores not counted. *)
Fixpoint count_digits (s : string) : nat :=
  match s with
  | EmptyString => O
  | String c rest => if is_digit c then S (count_digits rest) else count_digits rest
  end.

Definition parse_limited (s : string) : option Z :=
  if (MAX_STR_DIGITS <? count_digits s)%nat then None
  else parse_digits 0 false s.

Definition int (s : string) : option Z :=
  match rstrip_by is_space (lstrip_by is_space s) with
  | EmptyString => None
  | String c rest =>
      if Ascii.eqb c "-" then Z.opp <$> parse_limited rest
      else if Ascii.eqb c "+" then parse_limited rest
      else parse_limited (String c rest)
  end.

End Py.

(** ** Data model *)

(** One entry of [book['image']['sources']]: a base URL and the variant
    mapping (a JSON object from a size descriptor to a URL). *)
Record source : Type := {
  src : string;
  srcset : gmap string string;
}.

(** The fields of the book object that the writers read. *)
Record book : Type := {
  title : string;
  author : string;
  url : string;
  image_sources : list source;
}.

(** A full chapter, as returned by [get_chapter]. *)
Record chapter : Type := {
  order_no : Z;
  action_title : string;
  text : string;
  signed_audio_url : string;
}.

(** The MP4 atom names used by the tagger. *)
Definition atom (name : string) : string := String (ascii_of_nat 169) name.
Definition ART : string := atom "ART".
Definition alb : string := atom "alb".
Definition nam : string := atom "nam".

(** A stored file (or a response body) is seen as its bytes together with the
    tag atoms of the container, which mutagen reads and writes apart from the
    bytes.  [None]: the container has no tag table. *)
Record blob : Type := {
  payload : string;
  atoms : option (gmap string Py.pyval);
}.

Record response : Type := {
  status_code : Z;
  content : blob;
}.

(** The exceptions that reach the top level of the script. *)
Inductive exn : Type :=
  | CloudflareChallengeError
  | HTTPError (status : Z)
  | RetryError (last_attempt : exn)
  | ConnectionError
  | AssertionError
  | ValueError
  | IndexError
  | FileNotFoundError
  | TypeError
  | MutagenError.

Inductive result (A : Type) : Type :=
  | Ok (a : A)
  | Raise (e : exn).
Arguments Ok {A} a.
Arguments Raise {A} e.

(** What [scraper.get] does on one call. *)
Inductive get_outcome : Type :=
  | Returns (r : response)
  | Throws (e : exn).

(** The world the script acts on: the files under the download root, the
    number of GET requests issued so far, and the seconds spent sleeping
    between retries. *)
Record world : Type := {
  fs : gmap string blob;
  gets : nat;
  idle : Z;
}.

(** ** A state-and-exception monad for the effectful functions *)

Definition M (A : Type) : Type := world -> world * result A.

Definition ret {A} (a : A) : M A := fun w => (w, Ok a).
Definition raise {A} (e : exn) : M A := fun w => (w, Raise e).
Definition bind {A B} (m : M A) (k : A -> M B) : M B :=
  fun w => match m w with
           | (w', Ok a) => k a w'
           | (w', Raise e) => (w', Raise e)
           end.

Notation "'let*' x ':=' m 'in' k" := (bind m (fun x => k))
  (at level 10, x name, m at level 100, k at level 200).
Notation "m >> k" := (bind m (fun _ => k))
  (at level 80, right associativity).

(** [assert cond] *)
Definition assert (cond : bool) : M unit :=
  if cond then ret tt else raise AssertionError.

(** [for x in xs: body(x)], stopping at the first exception. *)
Fixpoint for_each {A} (body : A -> M unit) (xs : list A) : M unit :=
  match xs with
  | [] => ret tt
  | x :: rest => body x >> for_each body rest
  end.

(** *** File-system primitives *)

(** [dir / name] of pathlib, for a relative [name] (an absolute one would
    replace [dir]); the file names of the script are relative. *)
Definition path_join (dir name : string) : string := dir +:+ "/" +:+ name.

(** [file_path.exists()] *)
Definition path_exists (p : string) : M bool :=
  fun w => (w, Ok (bool_decide (is_Some (fs w !! p)))).

Definition store (p : string) (b : blob) (w : world) : world :=
  {| fs := <[p := b]> (fs w); gets := gets w; idle := idle w |}.

(** [open(p, "w+").write(text)], for a path whose directory exists: the
    world holds files only, the directories are taken to be there. *)
Definition write_text (p : string) (t : string) : M unit :=
  fun w => (store p {| payload := t; atoms := None |} w, Ok tt).

(** [p.write_bytes(content)] *)
Definition write_bytes (p : string) (b : blob) : M unit :=
  fun w => (store p b w, Ok tt).

Definition add_idle (seconds : Z) (w : world) : world :=
  {| fs := fs w; gets := gets w; idle := idle w + seconds |}.

Definition count_get (w : world) : world :=
  {| fs := fs w; gets := S (gets w); idle := idle w |}.

(** [time.sleep(seconds)], as tenacity calls it between attempts. *)
Definition sleep (seconds : Z) : M unit :=
  fun w => (add_idle seconds w, Ok tt).

(** ** Constants of the script *)

Definition CLOUDFLARE_MAX_ATTEMPTS : nat := 3.
Definition CLOUDFLARE_WAIT_TIME : Z := 2.
Definition DOWNLOAD_DIR : string := "C:/Downloads".

(** ** The retry decorator

    [tenacity.retry(retry=retry_if_exception_type(E), wait=wait_fixed(t),
    stop=stop_after_attempt(n))] around [body].  After each attempt: an
    outcome the predicate does not select is handed back as it is (a result
    is returned, another exception propagates); a selected exception stops
    the loop once [n] attempts were made, and since the decorator is built
    without [reraise=True] the caller then gets tenacity's [RetryError]
    holding the last attempt; otherwise the loop sleeps [t] and calls [body]
    again.  [more] counts the attempts still allowed after the current one,
    so [stop_after_attempt] holds exactly when it is zero. *)

Definition retry_if_exception_type {A} (selected : exn -> bool)
    (outcome : result A) : bool :=
  match outcome with
  | Ok _ => false
  | Raise e => selected e
  end.

Fixpoint retry_loop {A} (selected : exn -> bool) (wait : Z) (more : nat)
    (body : M A) : M A :=
  fun w =>
    let '(w1, outcome) := body w in
    if retry_if_exception_type selected outcome then
      match outcome with
      | Ok a => (w1, Ok a)
      | Raise e =>
          match more with
          | O => (w1, Raise (RetryError e))
          | S more' => (sleep wait >> retry_loop selected wait more' body) w1
          end
      end
    else (w1, outcome).

Definition tenacity_retry {A} (selected : exn -> bool) (wait : Z)
    (max_attempts : nat) (body : M A) : M A :=
  retry_loop selected wait (Nat.pred max_attempts) body.

Definition is_challenge (e : exn) : bool :=
  match e with
  | CloudflareChallengeError => true
  | _ => false
  end.

(** [response.raise_for_status()] of requests: an [HTTPError] for a client
    error (4xx) or a server error (5xx), nothing otherwise. *)
Definition is_error_status (status : Z) : bool :=
  (400 <=? status) && (status <? 600).

Definition raise_for_status (r : response) : M unit :=
  if is_error_status (status_code r)
  then raise (HTTPError (status_code r))
  else ret tt.

Section Script.

(** What the network answers to the [n]-th GET of the run, sent to [url]. *)
Variable scraper_get : nat -> string -> get_outcome.

(** The order in which Python iterates over a set of strings: some
    enumeration of its elements, not otherwise known. *)
Variable set_iter : gset string -> list string.
Hypothesis set_iter_perm : forall X, set_iter X ≡ₚ elements X.

(** [pathvalidate.sanitize_filepath], taken as given. *)
Variable sanitize_filepath : string -> string.

(** Whether mutagen finds an MP4 container in the bytes of a file, taken as
    given. *)
Variable is_container : string -> bool.

(** [scraper.get(url, **kwargs)] *)
Definition get (u : string) : M response :=
  fun w =>
    match scraper_get (gets w) u with
    | Returns r => (count_get w, Ok r)
    | Throws e => (count_get w, Raise e)
    end.

(** The body of [_request], one attempt. *)
Definition request_once (u : string) : M response :=
  let* response := get u in
  raise_for_status response >>
  ret response.

(** [_request], under its decorator. *)
Definition _request (u : string) : M response :=
  tenacity_retry is_challenge CLOUDFLARE_WAIT_TIME CLOUDFLARE_MAX_ATTEMPTS
    (request_once u).

(** [get_book_dir]; [today] is [datetime.today().strftime('%Y-%m-%d')]. *)
Definition get_book_dir (today : string) (b : book) : string :=
  path_join DOWNLOAD_DIR (sanitize_filepath (today +:+ " - " +:+ title b)).

(** ** The text renderer *)

Definition nl2 : string := String "010" (String "010" EmptyString).

(** [f"0{chapter['order_no']}"] *)
Definition order_label (n : Z) : string := "0" +:+ Py.str_int n.

Definition create_markdown_text (b : book) (chapters : list chapter) : string :=
  let markdown_text := "# " +:+ title b +:+ nl2 in
  let markdown_text := markdown_text +:+ ("_" +:+ author b +:+ "_" +:+ nl2) in
  let markdown_text :=
    fold_left
      (fun markdown_text c =>
         let markdown_text :=
           markdown_text +:+
           ("## Blink " +:+ order_label (order_no c) +:+ " - " +:+
            action_title c +:+ nl2) in
         markdown_text +:+ (text c +:+ nl2))
      chapters markdown_text in
  markdown_text +:+ ("Source: " +:+ url b +:+ nl2).

(** ** The tagger *)

(** [MP4(filename)]: the tag table of the stored container.  Mutagen raises
    its own error ([MutagenError] and its subclasses, here one constructor)
    when the file is missing or its bytes are not an MP4 container. *)
Definition MP4 (filename : string) : M (option (gmap string Py.pyval)) :=
  fun w => match fs w !! filename with
           | Some f =>
               if is_container (payload f) then (w, Ok (atoms f))
               else (w, Raise MutagenError)
           | None => (w, Raise MutagenError)
           end.

(** [mp4_file.add_tags()] under [if not mp4_file.tags:].  A container
    without tag table gets an empty one; [add_tags] refuses a container that
    has a table, so an existing empty table (which is falsy) raises. *)
Definition tags_or_add (mp4_file_tags : option (gmap string Py.pyval))
    : M (gmap string Py.pyval) :=
  match mp4_file_tags with
  | None => ret ∅
  | Some t => if bool_decide (t = ∅) then raise MutagenError else ret t
  end.

(** [tags[key] = value]: mutagen encodes the value at once and raises
    [TypeError] for a value that is not text. *)
Definition setitem (key : string) (value : Py.pyval)
    (tags : gmap string Py.pyval) : result (gmap string Py.pyval) :=
  match value with
  | Py.PyNone => Raise TypeError
  | Py.PyStr _ => Ok (<[key := value]> tags)
  end.

Definition and_then {A B} (r : result A) (k : A -> result B) : result B :=
  match r with
  | Ok a => k a
  | Raise e => Raise e
  end.

(** The assignments of [set_m4a_meta_data] on the tag table. *)
Definition set_tags (artist title album : Py.pyval)
    (tags : gmap string Py.pyval) : result (gmap string Py.pyval) :=
  and_then (if Py.truthy artist then setitem ART artist tags else Ok tags)
    (fun tags =>
  and_then (if Py.truthy title then setitem alb album tags else Ok tags)
    (fun tags =>
  if Py.truthy album then setitem nam title tags else Ok tags)).

(** [tags.save(filename)] *)
Definition save (filename : string) (tags : gmap string Py.pyval) : M unit :=
  fun w => match fs w !! filename with
           | Some f => (store filename {| payload := payload f; atoms := Some tags |} w, Ok tt)
           | None => (w, Raise MutagenError)
           end.

Definition set_m4a_meta_data (filename : string)
    (artist title album : Py.pyval) : M unit :=
  let* mp4_file_tags := MP4 filename in
  let* tags := tags_or_add mp4_file_tags in
  let* tags := (fun w => (w, set_tags artist title album tags)) in
  save filename tags.

(** ** The three writers *)

Section Writers.

(** The global [book_dir]. *)
Variable book_dir : string.

Definition text_path (b : book) : string :=
  path_join book_dir (sanitize_filepath (title b +:+ ".md")).

Definition download_book_text (b : book) (chapters : list chapter) : M unit :=
  let file_path := text_path b in
  let* present := path_exists file_path in
  if present then ret tt
  else
    let text := create_markdown_text b chapters in
    write_text file_path text.

Definition audio_name (n : Z) : string := order_label n +:+ ".m4a".

Definition audio_path (chapter_data : chapter) : string :=
  path_join book_dir (audio_name (order_no chapter_data)).

Definition download_chapter_audio (b : book) (chapter_data : chapter) : M unit :=
  let file_path := audio_path chapter_data in
  let* present := path_exists file_path in
  if present then ret tt
  else
    assert (Py.contains "m4a" (signed_audio_url chapter_data)) >>
    let* response := _request (signed_audio_url chapter_data) in
    assert (status_code response =? 200) >>
    write_bytes file_path (content response) >>
    set_m4a_meta_data file_path
      (Py.PyStr (author b))
      (Py.PyStr (action_title chapter_data))
      (Py.PyStr (title b)).

(** *** Choosing the cover *)

(** The sort key of line 114: [int(x.split('/')[-1].rstrip('.jpg'))]. *)
Definition cover_key (x : string) : option Z :=
  Py.int (Py.rstrip ".jpg" (Py.last_item (Py.split "/" x))).

(** [sorted(xs, key=..., reverse=True)] computes the key of every element
    first, in iteration order (a key that fails raises [ValueError]), then
    sorts by decreasing key; the sort is stable, so among equal keys the
    iteration order is kept. *)
Fixpoint with_keys (key : string -> option Z) (xs : list string)
    : option (list (Z * string)) :=
  match xs with
  | [] => Some []
  | x :: rest =>
      match key x with
      | None => None
      | Some k => cons (k, x) <$> with_keys key rest
      end
  end.

Fixpoint insert_desc (kx : Z * string) (sorted : list (Z * string))
    : list (Z * string) :=
  match sorted with
  | [] => [kx]
  | ky :: rest =>
      if fst kx <? fst ky then ky :: insert_desc kx rest
      else kx :: sorted
  end.

Fixpoint sort_desc (xs : list (Z * string)) : list (Z * string) :=
  match xs with
  | [] => []
  | kx :: rest => insert_desc kx (sort_desc rest)
  end.

Definition sorted_reverse (key : string -> option Z) (xs : list string)
    : M (list string) :=
  match with_keys key xs with
  | None => raise ValueError
  | Some keyed => ret (snd <$> sort_desc keyed)
  end.

(** [xs[0]] *)
Definition item0 (xs : list string) : M string :=
  match xs with
  | [] => raise IndexError
  | x :: _ => ret x
  end.

(** The set built by the loop of lines 110-113. *)
Definition candidate_urls (b : book) : gset string :=
  fold_left
    (fun urls source =>
       (urls ∪ {[src source]}) ∪ list_to_set (map_to_list (srcset source)).*2)
    (image_sources b) ∅.

Definition largest_url (urls : gset string) : M string :=
  let* sorted := sorted_reverse cover_key (set_iter urls) in
  item0 sorted.

Definition cover_path : string := path_join book_dir "cover.jpg".

Definition download_book_cover (b : book) : M unit :=
  let urls := candidate_urls b in
  let* url := largest_url urls in
  let file_path := cover_path in
  let* present := path_exists file_path in
  if present then ret tt
  else
    assert (Py.endswith url ".jpg") >>
    let* response := _request url in
    assert (status_code response =? 200) >>
    write_bytes file_path (content response).

(** The download part of the script body (lines 183-193), after the book
    and its chapters were fetched. *)
Definition run_downloads (b : book) (chapters : list chapter) : M unit :=
  download_book_text b chapters >>
  for_each (download_chapter_audio b) chapters >>
  download_book_cover b.

End Writers.

End Script.

(** * Notions used in the statements, and test data *)

(** A disk on which every file is an MP4 container. *)
Definition every_body : string -> bool := fun _ => true.

(** The two-digit zero-padded decimal form, Python's [f"{n:02d}"]. *)
Definition zero_pad2 (n : Z) : string :=
  if (0 <=? n) && (n <? 10) then "0" +:+ Py.str_int n else Py.str_int n.

(** The document as the specification describes it: a list of blocks, each
    followed by an empty line. *)
Definition heading (c : chapter) : string :=
  "## Blink 0" +:+ Py.str_int (order_no c) +:+ " - " +:+ action_title c.

Definition blocks (b : book) (chapters : list chapter) : list string :=
  ["# " +:+ title b; "_" +:+ author b +:+ "_"] ++
  List.flat_map (fun c => [heading c; text c]) chapters ++
  ["Source: " +:+ url b].

Definition layout (bs : list string) : string :=
  fold_right (fun blk rest => blk +:+ nl2 +:+ rest) "" bs.

(** The scenario of the specification. *)
Definition atomic_habits : book := {|
  title := "Atomic Habits";
  author := "James Clear";
  url := "https://example/book";
  image_sources :=
    [ {| src := "https://img.example/cover/100.jpg";
         srcset := {[ "1x" := "https://img.example/cover/400.jpg";
                      "2x" := "https://img.example/cover/250.jpg" ]} |} ];
|}.

Definition intro : chapter := {|
  order_no := 1;
  action_title := "Intro";
  text := "...";
  signed_audio_url := "https://audio.example/1.m4a?sig=a";
|}.

Definition habit_loop : chapter := {|
  order_no := 2;
  action_title := "Habit Loop";
  text := "...";
  signed_audio_url := "https://audio.example/2.m4a?sig=b";
|}.

(** The tag table the tagger starts from: the one of the container, or a
    fresh one when the container has none. *)
Definition initial_tags (f : blob) : gmap string Py.pyval :=
  match atoms f with
  | None => ∅
  | Some t => t
  end.

Definition untagged_file : blob := {| payload := "AUDIO"; atoms := None |}.

Definition one_file_world : world :=
  {| fs := {[ "01.m4a" := untagged_file ]}; gets := 0; idle := 0 |}.

Definition empty_world : world := {| fs := ∅; gets := 0; idle := 0 |}.

Definition plain (bytes : string) : blob := {| payload := bytes; atoms := None |}.

Definition always (r : response) : nat -> string -> get_outcome :=
  fun _ _ => Returns r.

Definition not_found : response := {| status_code := 404; content := plain "" |}.
Definition not_modified : response := {| status_code := 304; content := plain "" |}.
Definition audio_ok : response := {| status_code := 200; content := plain "AUDIO" |}.

(** The network of the retry scenario: the challenge error on the first
    [n] GETs, then a 200 response. *)
Definition challenged (n : nat) : nat -> string -> get_outcome :=
  fun k _ => if (k <? n)%nat then Throws CloudflareChallengeError
             else Returns audio_ok.

(** A string of decimal digits and its value. *)
Fixpoint all_digits (s : string) : bool :=
  match s with
  | EmptyString => true
  | String c rest => Py.is_digit c && all_digits rest
  end.

Fixpoint digits_value (acc : Z) (s : string) : Z :=
  match s with
  | EmptyString => acc
  | String c rest => digits_value (10 * acc + Py.digit_value c) rest
  end.

(** [u] ends in a path segment that is the bare integer [n], written with at
    most [MAX_STR_DIGITS] digits, followed by [.jpg]. *)
Definition bare_integer_jpg (u : string) (n : Z) : Prop :=
  exists digits,
    digits <> "" /\ all_digits digits = true /\
    (String.length digits <= Py.MAX_STR_DIGITS)%nat /\
    Py.last_item (Py.split "/" u) = digits +:+ ".jpg" /\
    n = digits_value 0 digits.

Definition three_covers : gset string :=
  {[ "https://img.example/cover/100.jpg";
     "https://img.example/cover/400.jpg";
     "https://img.example/cover/250.jpg" ]}.

(** [m] changes no file other than [p]. *)
Definition touches_only {A} (p : string) (m : M A) : Prop :=
  forall w q, q <> p -> fs (m w).1 !! q = fs w !! q.

(** A world in which only the cover of an earlier run exists. *)
Definition old_cover_world : world :=
  {| fs := {[ cover_path "d" := plain "OLD" ]}; gets := 0; idle := 0 |}.

(** A book whose only cover candidate is not named by a bare integer. *)
Definition odd_cover_book : book := {|
  title := "Atomic Habits";
  author := "James Clear";
  url := "https://example/book";
  image_sources :=
    [ {| src := "https://img.example/cover/large.jpg"; srcset := ∅ |} ];
|}.

(** What one attempt of [_request] makes of the answer of [scraper.get]. *)
Definition outcome_of_get (o : get_outcome) : result response :=
  match o with
  | Throws e => Raise e
  | Returns r =>
      if is_error_status (status_code r) then Raise (HTTPError (status_code r))
      else Ok r
  end.

(** The world after [j] attempts that were each followed by the fixed wait. *)
Definition advance (j : nat) (w : world) : world :=
  {| fs := fs w; gets := gets w + j;
     idle := idle w + CLOUDFLARE_WAIT_TIME * Z.of_nat j |}.

Definition unreachable : nat -> string -> get_outcome :=
  fun _ _ => Throws ConnectionError.

(** A file that already carries a composer atom and an old title. *)
Definition tagged_file : blob :=
  {| payload := "AUDIO";
     atoms := Some {[ atom "wrt" := Py.PyStr "Someone"; nam := Py.PyStr "Old" ]} |}.

Definition tagged_world : world :=
  {| fs := {[ "01.m4a" := tagged_file ]}; gets := 0; idle := 0 |}.

(** A chapter whose signed URL does not name an m4a file. *)
Definition mp3_chapter : chapter := {|
  order_no := 3;
  action_title := "Cue";
  text := "...";
  signed_audio_url := "https://audio.example/3.mp3?sig=c";
|}.

(** A second chapter that carries the sequence number of [intro]. *)
Definition intro_again : chapter := {|
  order_no := 1;
  action_title := "Outro";
  text := "...";
  signed_audio_url := "https://audio.example/9.m4a?sig=z";
|}.

(** Every character of [s] satisfies [p]. *)
Fixpoint all_chars (p : ascii -> bool) (s : string) : bool :=
  match s with
  | EmptyString => true
  | String c rest => p c && all_chars p rest
  end.

(** The part of the document that belongs to one chapter. *)
Definition chapter_section (c : chapter) : string :=
  heading c +:+ nl2 +:+ text c +:+ nl2.

(** Two covers whose names denote the same integer. *)
Definition tied_covers : gset string :=
  {[ "https://img.example/cover/7.jpg"; "https://img.example/cover/007.jpg" ]}.

(** A book without cover sources. *)
Definition coverless_book : book := {|
  title := "Atomic Habits";
  author := "James Clear";
  url := "https://example/book";
  image_sources := [];
|}.

(** A book whose largest cover is named without the [.jpg] suffix. *)
Definition bare_cover_book : book := {|
  title := "Atomic Habits";
  author := "James Clear";
  url := "https://example/book";
  image_sources :=
    [ {| src := "https://img.example/cover/400"; srcset := ∅ |} ];
|}.

Definition cover_ok : response :=
  {| status_code := 200; content := plain "JPEG" |}.

(** The world after a first run for [atomic_habits] on a network that
    answers every request with 200. *)
Definition after_first_run : world :=
  (run_downloads (challenged 0) elements id every_body "d" atomic_habits
     [intro; habit_loop] empty_world).1.

(** A cover URL whose name has one digit more than [int] accepts. *)
Fixpoint ones (n : nat) : string :=
  match n with
  | O => EmptyString
  | S k => String "1" (ones k)
  end.

Definition overlong_cover : string :=
  "https://img.example/cover/" +:+ ones 4301 +:+ ".jpg".

(** A file name that lies directly in the directory it is joined to: not
    empty, not [.] or [..], and without path separator. *)
Definition plain_name (n : string) : bool :=
  negb (String.eqb n "") && negb (String.eqb n ".") &&
  negb (String.eqb n "..") &&
  all_chars (fun c => negb (Ascii.eqb c "/") && negb (Ascii.eqb c "\")) n.

(** * Properties *)

(** ** The Python primitives on examples *)

Example str_int_7 : Py.str_int 7 = "7". Proof. reflexivity. Qed.
Example str_int_10 : Py.str_int 10 = "10". Proof. reflexivity. Qed.
Example str_int_neg : Py.str_int (-3) = "-3". Proof. reflexivity. Qed.
Example rstrip_jpg : Py.rstrip ".jpg" "400.jpg" = "400". Proof. reflexivity. Qed.
Example rstrip_all : Py.rstrip ".jpg" "jpg.jpg" = "". Proof. reflexivity. Qed.
Example split_url :
  Py.split "/" "https://img/x/400.jpg" = ["https:"; ""; "img"; "x"; "400.jpg"].
Proof. reflexivity. Qed.
Example int_400 : Py.int "400" = Some 400. Proof. reflexivity. Qed.
Example int_signed : Py.int " -1_000 " = Some (-1000). Proof. reflexivity. Qed.
Example int_bad : Py.int "1__0" = None. Proof. reflexivity. Qed.
Example int_empty : Py.int "" = None. Proof. reflexivity. Qed.

(** ** Strings *)

Lemma append_cons (c : ascii) (s t : string) :
  String c s +:+ t = String c (s +:+ t).
Proof. reflexivity. Qed.

Lemma append_nil_l (t : string) : "" +:+ t = t.
Proof. reflexivity. Qed.

Lemma append_nil_r (s : string) : s +:+ "" = s.
Proof.
  induction s as [|c s IH]; [reflexivity|].
  rewrite append_cons. f_equal. exact IH.
Qed.

Lemma append_assoc (s t u : string) : (s +:+ t) +:+ u = s +:+ (t +:+ u).
Proof.
  induction s as [|c s IH]; [reflexivity|].
  rewrite !append_cons. f_equal. exact IH.
Qed.

Lemma length_append (s t : string) :
  String.length (s +:+ t) = (String.length s + String.length t)%nat.
Proof.
  induction s as [|c s IH]; [reflexivity|].
  rewrite append_cons. simpl. now rewrite IH.
Qed.

Lemma prefix_append (s t : string) : String.prefix s (s +:+ t) = true.
Proof.
  induction s as [|c s IH].
  - now destruct t.
  - rewrite append_cons. simpl.
    destruct (ascii_dec c c) as [_|N]; [exact IH | now destruct N].
Qed.

Lemma endswith_append (s t : string) : Py.endswith (s +:+ t) t = true.
Proof.
  induction s as [|c s IH].
  - rewrite append_nil_l. destruct t; simpl; [reflexivity|].
    now rewrite Ascii.eqb_refl, String.eqb_refl.
  - rewrite append_cons. simpl. rewrite IH. apply orb_true_r.
Qed.

Lemma contains_prefix (n s : string) :
  String.prefix n s = true -> Py.contains n s = true.
Proof. destruct s; unfold Py.contains; intros ->; reflexivity. Qed.

Lemma contains_append (s n t : string) : Py.contains n (s +:+ (n +:+ t)) = true.
Proof.
  induction s as [|c s IH].
  - rewrite append_nil_l. apply contains_prefix, prefix_append.
  - rewrite append_cons. simpl. rewrite IH. apply orb_true_r.
Qed.

(** ** Sequence numbers in file names and headings *)

Example zero_pad2_7 : zero_pad2 7 = "07". Proof. reflexivity. Qed.
Example zero_pad2_12 : zero_pad2 12 = "12". Proof. reflexivity. Qed.

(** The sequence numbers 0..9. *)
Lemma single_digit_In (n : Z) :
  0 <= n <= 9 -> In n (map Z.of_nat (List.seq 0 10)).
Proof.
  intros H. apply in_map_iff. exists (Z.to_nat n).
  split; [lia | apply in_seq; lia].
Qed.

Lemma of_uint_short (d : Decimal.uint) :
  (String.length (NilEmpty.string_of_uint d) <= 1)%nat -> Z.of_uint d <= 9.
Proof.
  destruct d as [|d|d|d|d|d|d|d|d|d|d]; simpl; intros H;
    try (destruct d; simpl in H; try lia; vm_compute; discriminate).
  vm_compute; discriminate.
Qed.

Lemma str_int_long (n : Z) : 10 <= n -> (2 <= String.length (Py.str_int n))%nat.
Proof.
  intros Hn. unfold Py.str_int.
  pose proof (DecimalZ.of_to n) as R.
  destruct (Z.to_int n) as [d|d] eqn:E; simpl in R.
  - simpl. destruct (le_lt_dec 2 (String.length (NilZero.string_of_uint d))) as [L|L];
      [exact L | exfalso].
    assert (Z.of_uint d <= 9); [|lia].
    destruct d; apply of_uint_short; simpl in *; lia.
  - assert (0 <= Z.of_uint d) by (unfold Z.of_uint; lia). lia.
Qed.

Lemma order_label_length (n : Z) :
  String.length (order_label n) = S (String.length (Py.str_int n)).
Proof. reflexivity. Qed.

(** C3, as the code has it.  The label is the literal character [0] followed
    by the decimal form of the sequence number: for 0..9 that is the
    two-digit zero-padded form and the audio file names increase strictly
    (in the order of strings) with the sequence number; from 10 on the label
    has three characters or more and is not the two-digit form. *)
Theorem order_label_shape (a b : Z) (Ha : 0 <= a) :
  order_label a = "0" +:+ Py.str_int a /\
  (a <= 9 -> order_label a = zero_pad2 a /\ String.length (order_label a) = 2%nat) /\
  (10 <= a -> (3 <= String.length (order_label a))%nat /\ order_label a <> zero_pad2 a) /\
  (a < b -> b <= 9 -> String.ltb (audio_name a) (audio_name b) = true).
Proof.
  split; [reflexivity|]. split; [|split].
  - intros H9.
    assert (T : forallb
                  (fun n => String.eqb (order_label n) (zero_pad2 n) &&
                            Nat.eqb (String.length (order_label n)) 2)
                  (map Z.of_nat (List.seq 0 10)) = true) by reflexivity.
    rewrite forallb_forall in T.
    specialize (T a (single_digit_In a ltac:(lia))).
    apply andb_true_iff in T as [T1 T2].
    split; [now apply String.eqb_eq | now apply Nat.eqb_eq].
  - intros H10. pose proof (str_int_long a H10) as L.
    rewrite order_label_length. split; [lia|].
    intros E. apply (f_equal String.length) in E.
    rewrite order_label_length in E. unfold zero_pad2 in E.
    replace (a <? 10) with false in E by (symmetry; apply Z.ltb_ge; lia).
    rewrite andb_false_r in E. lia.
  - intros Hlt H9.
    assert (T : forallb
                  (fun n => forallb
                     (fun m => implb (n <? m)
                                 (String.ltb (audio_name n) (audio_name m)))
                     (map Z.of_nat (List.seq 0 10)))
                  (map Z.of_nat (List.seq 0 10)) = true) by reflexivity.
    rewrite forallb_forall in T.
    specialize (T a (single_digit_In a ltac:(lia))).
    rewrite forallb_forall in T.
    specialize (T b (single_digit_In b ltac:(lia))).
    replace (a <? b) with true in T by (symmetry; apply Z.ltb_lt; lia).
    exact T.
Qed.

Lemma order_label_shape_witness :
  order_label 3 = "03" /\ String.ltb (audio_name 3) (audio_name 7) = true.
Proof.
  destruct (order_label_shape 3 7 ltac:(lia)) as (H1 & _ & _ & H4).
  split; [exact H1 | apply H4; lia].
Defined.

(** C3 as the claim words it fails from sequence number 10 on: the label of
    10 is [010], not the two-digit form [10], and [010.m4a] sorts before
    [09.m4a]. *)
Lemma two_digit_padding_fails_at_10 :
  order_label 10 = "010" /\ zero_pad2 10 = "10" /\
  order_label 10 <> zero_pad2 10 /\
  String.ltb (audio_name 9) (audio_name 10) = false /\
  String.ltb (audio_name 10) (audio_name 9) = true.
Proof. repeat split; try reflexivity. discriminate. Qed.

(** ** The text document *)

Lemma layout_app (xs ys : list string) :
  layout (xs ++ ys) = layout xs +:+ layout ys.
Proof.
  induction xs as [|x xs IH]; [reflexivity|].
  simpl. rewrite IH, !append_assoc. reflexivity.
Qed.

Lemma layout_snoc (xs : list string) (x : string) :
  layout (xs ++ [x]) = layout xs +:+ (x +:+ nl2).
Proof. rewrite layout_app. simpl. now rewrite append_nil_r. Qed.

Lemma layout_In (blk : string) (bs : list string) :
  In blk bs -> exists pre post, layout bs = pre +:+ (blk +:+ post).
Proof.
  induction bs as [|x bs IH]; [intros []|].
  intros [->|Hin].
  - exists "", (nl2 +:+ layout bs). reflexivity.
  - destruct (IH Hin) as (pre & post & E).
    exists (x +:+ nl2 +:+ pre), post. simpl. rewrite E, !append_assoc. reflexivity.
Qed.

Lemma chapters_loop (chapters : list chapter) (acc : string) :
  fold_left
    (fun markdown_text c =>
       (markdown_text +:+
        ("## Blink " +:+ order_label (order_no c) +:+ " - " +:+
         action_title c +:+ nl2)) +:+ (text c +:+ nl2))
    chapters acc
  = acc +:+ layout (List.flat_map (fun c => [heading c; text c]) chapters).
Proof.
  revert acc. induction chapters as [|c cs IH]; intros acc.
  - simpl. now rewrite append_nil_r.
  - simpl fold_left. rewrite IH. unfold heading, order_label.
    simpl List.flat_map. simpl layout.
    rewrite !append_assoc. reflexivity.
Qed.

Lemma create_markdown_text_layout (b : book) (chapters : list chapter) :
  create_markdown_text b chapters = layout (blocks b chapters).
Proof.
  unfold create_markdown_text, blocks. rewrite chapters_loop.
  rewrite (layout_app [_; _]), layout_app. simpl layout.
  rewrite !append_assoc, ?append_nil_r. reflexivity.
Qed.

(** C5, as the code has it.  The document is the title heading, the italic
    author line, then for each chapter in the order of the list its heading
    [## Blink 0N - title] and its body, then the line [Source: url]; every
    one of these blocks is followed by two newline characters, so the
    document starts with the title heading, contains every chapter heading,
    and ends with the source line followed by two newlines. *)
Theorem markdown_document_layout (b : book) (chapters : list chapter) :
  let doc := create_markdown_text b chapters in
  doc = layout (blocks b chapters) /\
  Py.startswith doc ("# " +:+ title b) = true /\
  (forall c, In c chapters -> Py.contains (heading c) doc = true) /\
  Py.endswith doc ("Source: " +:+ url b +:+ nl2) = true.
Proof.
  intros doc. subst doc. rewrite create_markdown_text_layout.
  split; [reflexivity|]. split; [|split].
  - unfold blocks, layout, Py.startswith. cbn [app fold_right].
    apply prefix_append.
  - intros c Hc.
    destruct (layout_In (heading c) (blocks b chapters)) as (pre & post & E).
    + unfold blocks. apply in_or_app. right. apply in_or_app. left.
      apply in_flat_map. exists c. split; [exact Hc | now left].
    + rewrite E. apply contains_append.
  - unfold blocks. rewrite app_assoc, layout_snoc, append_assoc.
    apply endswith_append.
Qed.

Example atomic_habits_document :
  let doc := create_markdown_text atomic_habits [intro; habit_loop] in
  Py.startswith doc "# Atomic Habits" = true /\
  Py.contains "## Blink 01 - Intro" doc = true /\
  Py.endswith doc ("Source: https://example/book" +:+ nl2) = true.
Proof. repeat split. Qed.

(** C5 as the claim words it fails in its last part: the document does not
    end with the source line, two newline characters follow it. *)
Lemma document_does_not_end_with_source_line :
  Py.endswith (create_markdown_text atomic_habits [intro; habit_loop])
    "Source: https://example/book" = false.
Proof. reflexivity. Qed.

(** ** The tagger *)

Lemma atoms_distinct : ART <> alb /\ ART <> nam /\ alb <> nam.
Proof. repeat split; discriminate. Qed.

(** What the assignments leave in the table when none of them raises. *)
Lemma set_tags_Ok (artist title album : Py.pyval)
    (t t' : gmap string Py.pyval) :
  set_tags artist title album t = Ok t' ->
  t' !! ART = (if Py.truthy artist then Some artist else t !! ART) /\
  t' !! alb = (if Py.truthy title then Some album else t !! alb) /\
  t' !! nam = (if Py.truthy album then Some title else t !! nam) /\
  (forall k, k <> ART -> k <> alb -> k <> nam -> t' !! k = t !! k).
Proof.
  destruct atoms_distinct as (H1 & H2 & H3). unfold set_tags, and_then, setitem.
  destruct (Py.truthy artist), (Py.truthy title), (Py.truthy album);
    destruct artist, title, album; intros E; try discriminate E;
    injection E as <-; repeat split; intros; now simplify_map_eq.
Qed.

Lemma set_tags_raises (artist title album : Py.pyval)
    (t : gmap string Py.pyval) (e : exn) :
  set_tags artist title album t = Raise e -> e = TypeError.
Proof.
  unfold set_tags, and_then, setitem.
  destruct (Py.truthy artist), (Py.truthy title), (Py.truthy album);
    destruct artist, title, album; intros E; try discriminate E;
    now injection E as <-.
Qed.

Lemma set_tags_album_None (artist title : Py.pyval) (t : gmap string Py.pyval) :
  Py.truthy title = true ->
  set_tags artist title Py.PyNone t = Raise TypeError.
Proof.
  intros Ht. unfold set_tags, and_then, setitem. rewrite Ht.
  destruct artist as [|[|c s]]; reflexivity.
Qed.

Lemma set_tags_title_None (artist album : Py.pyval) (t : gmap string Py.pyval) :
  Py.truthy album = true ->
  set_tags artist Py.PyNone album t = Raise TypeError.
Proof.
  intros Ha. unfold set_tags, and_then, setitem. rewrite Ha.
  destruct artist as [|[|c s]]; reflexivity.
Qed.

Lemma set_tags_returns (artist title album : Py.pyval)
    (t : gmap string Py.pyval) :
  (Py.truthy title = true -> album <> Py.PyNone) ->
  (Py.truthy album = true -> title <> Py.PyNone) ->
  exists t', set_tags artist title album t = Ok t'.
Proof.
  intros H1 H2. unfold set_tags, and_then, setitem.
  destruct artist as [|[|c1 s1]], title as [|[|c2 s2]], album as [|[|c3 s3]];
    simpl in *; try (now eexists);
    first [now destruct H1 | now destruct H2].
Qed.

Section Tagger.

Variable is_container : string -> bool.

Lemma set_m4a_meta_data_not_container (filename : string)
    (artist title album : Py.pyval) (w : world) (f : blob) :
  fs w !! filename = Some f -> is_container (payload f) = false ->
  set_m4a_meta_data is_container filename artist title album w =
    (w, Raise MutagenError).
Proof.
  intros Hf Hc. unfold set_m4a_meta_data, bind, MP4. now rewrite Hf, Hc.
Qed.

Lemma set_m4a_meta_data_empty_table (filename : string)
    (artist title album : Py.pyval) (w : world) (f : blob) :
  fs w !! filename = Some f -> atoms f = Some ∅ ->
  set_m4a_meta_data is_container filename artist title album w =
    (w, Raise MutagenError).
Proof.
  intros Hf Ht. unfold set_m4a_meta_data, bind, MP4, tags_or_add.
  rewrite Hf, Ht. now destruct (is_container (payload f)).
Qed.

(** On a container without tag table or with a non-empty one the outcome is
    that of the assignments. *)
Lemma set_m4a_meta_data_run (filename : string) (artist title album : Py.pyval)
    (w : world) (f : blob) :
  fs w !! filename = Some f ->
  is_container (payload f) = true ->
  atoms f <> Some ∅ ->
  set_m4a_meta_data is_container filename artist title album w =
  match set_tags artist title album (initial_tags f) with
  | Ok tags =>
      (store filename {| payload := payload f; atoms := Some tags |} w, Ok tt)
  | Raise e => (w, Raise e)
  end.
Proof.
  intros Hf Hc Ht. unfold set_m4a_meta_data, bind, MP4, tags_or_add, save,
    initial_tags. rewrite Hf, Hc.
  destruct (atoms f) as [t|].
  - rewrite bool_decide_eq_false_2 by congruence. cbn.
    destruct (set_tags artist title album t); [now rewrite Hf | reflexivity].
  - cbn. destruct (set_tags artist title album ∅); [now rewrite Hf | reflexivity].
Qed.

Lemma set_m4a_meta_data_cases (filename : string)
    (artist title album : Py.pyval) (w : world) (f : blob) :
  fs w !! filename = Some f ->
  (exists e, set_m4a_meta_data is_container filename artist title album w =
               (w, Raise e)) \/
  (is_container (payload f) = true /\ atoms f <> Some ∅ /\
   exists tags,
     set_tags artist title album (initial_tags f) = Ok tags /\
     set_m4a_meta_data is_container filename artist title album w =
       (store filename {| payload := payload f; atoms := Some tags |} w, Ok tt)).
Proof.
  intros Hf.
  destruct (is_container (payload f)) eqn:Hc;
    [|left; eexists; now apply set_m4a_meta_data_not_container with f].
  assert (Ht : atoms f = Some ∅ \/ atoms f <> Some ∅).
  { destruct (atoms f) as [t|]; [|now right].
    destruct (decide (t = ∅)) as [->|Hne]; [now left | right; congruence]. }
  destruct Ht as [Ht|Ht];
    [left; eexists; now apply set_m4a_meta_data_empty_table with f|].
  rewrite (set_m4a_meta_data_run filename artist title album w f Hf Hc Ht).
  destruct (set_tags artist title album (initial_tags f)) as [tags|e] eqn:E.
  - right. split; [reflexivity|]. split; [exact Ht|]. now exists tags.
  - left. now exists e.
Qed.

End Tagger.

(** C10, as the code has it.  In [set_m4a_meta_data] the album atom is
    assigned when the [title] argument is truthy, and gets the [album]
    argument; the title atom is assigned when the [album] argument is
    truthy, and gets the [title] argument.  So a truthy title with
    [album=None], or a truthy album with [title=None], assigns [None] to an
    atom: that assignment raises [TypeError], nothing is saved and the world
    is as before.  In every other case the call returns and the saved table
    holds what the crossed guards assigned. *)
Theorem tagger_guards_cross_wired
    (is_container : string -> bool) (filename : string)
    (artist title album : Py.pyval) (w : world) (f : blob)
    (Hfile : fs w !! filename = Some f)
    (Hcontainer : is_container (payload f) = true)
    (Htable : atoms f <> Some ∅) :
  (forall w',
     set_m4a_meta_data is_container filename artist title album w = (w', Ok tt) ->
     exists tags,
       fs w' !! filename = Some {| payload := payload f; atoms := Some tags |} /\
       tags !! alb =
         (if Py.truthy title then Some album else initial_tags f !! alb) /\
       tags !! nam =
         (if Py.truthy album then Some title else initial_tags f !! nam)) /\
  (Py.truthy title = true -> album = Py.PyNone ->
   set_m4a_meta_data is_container filename artist title album w =
     (w, Raise TypeError)) /\
  (Py.truthy album = true -> title = Py.PyNone ->
   set_m4a_meta_data is_container filename artist title album w =
     (w, Raise TypeError)) /\
  ((Py.truthy title = true -> album <> Py.PyNone) ->
   (Py.truthy album = true -> title <> Py.PyNone) ->
   exists w',
     set_m4a_meta_data is_container filename artist title album w = (w', Ok tt)).
Proof.
  rewrite (set_m4a_meta_data_run is_container filename artist title album w f
             Hfile Hcontainer Htable).
  split; [|split; [|split]].
  - intros w' Hrun.
    destruct (set_tags artist title album (initial_tags f)) as [tags|e] eqn:E;
      [|discriminate Hrun].
    injection Hrun as <-. exists tags.
    destruct (set_tags_Ok _ _ _ _ _ E) as (_ & Ha & Hn & _).
    split; [simpl; apply lookup_insert_eq|]. now split.
  - intros Ht ->. now rewrite set_tags_album_None.
  - intros Ha ->. now rewrite set_tags_title_None.
  - intros H1 H2.
    destruct (set_tags_returns artist title album (initial_tags f) H1 H2)
      as [tags ->].
    now eexists.
Qed.

Lemma tagger_guards_cross_wired_witness :
  set_m4a_meta_data every_body "01.m4a" Py.PyNone Py.PyNone (Py.PyStr "Habits")
    one_file_world = (one_file_world, Raise TypeError).
Proof.
  apply (tagger_guards_cross_wired every_body "01.m4a" Py.PyNone Py.PyNone
           (Py.PyStr "Habits") one_file_world untagged_file);
    first [reflexivity | discriminate].
Defined.

(** C10 as the claim words it fails in its consequence: with a non-empty
    title and [album=None] the call does not write [None] into the album
    atom, it raises [TypeError] and the file keeps the tags it had. *)
Lemma none_album_is_not_written :
  set_m4a_meta_data every_body "01.m4a" Py.PyNone (Py.PyStr "Intro") Py.PyNone
    one_file_world = (one_file_world, Raise TypeError) /\
  fs one_file_world !! "01.m4a" = Some untagged_file /\
  atoms untagged_file = None.
Proof. repeat split. Qed.

(** ** The request wrapper *)

Section RetryLoop.

Context {A : Type} (selected : exn -> bool) (wait : Z) (body : M A).

Lemma retry_loop_done (more : nat) (w w1 : world) (outcome : result A) :
  body w = (w1, outcome) ->
  retry_if_exception_type selected outcome = false ->
  retry_loop selected wait more body w = (w1, outcome).
Proof.
  intros Hb Hsel. destruct more; simpl; now rewrite Hb, Hsel.
Qed.

Lemma retry_loop_again (more : nat) (w w1 : world) (e : exn) :
  body w = (w1, Raise e) ->
  selected e = true ->
  retry_loop selected wait (S more) body w =
  retry_loop selected wait more body (add_idle wait w1).
Proof.
  intros Hb Hsel. cbn [retry_loop]. rewrite Hb.
  cbn [retry_if_exception_type]. rewrite Hsel. reflexivity.
Qed.

Lemma retry_loop_exhausted (w w1 : world) (e : exn) :
  body w = (w1, Raise e) ->
  selected e = true ->
  retry_loop selected wait 0 body w = (w1, Raise (RetryError e)).
Proof.
  intros Hb Hsel. cbn [retry_loop]. rewrite Hb.
  cbn [retry_if_exception_type]. now rewrite Hsel.
Qed.

End RetryLoop.

Section Request.

Variable scraper_get : nat -> string -> get_outcome.

Lemma request_once_throws (u : string) (w : world) (e : exn) :
  scraper_get (gets w) u = Throws e ->
  request_once scraper_get u w = (count_get w, Raise e).
Proof. intros H. unfold request_once, bind, get. now rewrite H. Qed.

Lemma request_once_returns (u : string) (w : world) (r : response) :
  scraper_get (gets w) u = Returns r ->
  request_once scraper_get u w =
  (count_get w,
   if is_error_status (status_code r) then Raise (HTTPError (status_code r))
   else Ok r).
Proof.
  intros H. unfold request_once, bind, get, raise_for_status. rewrite H.
  now destruct (is_error_status (status_code r)).
Qed.

Lemma request_returns (u : string) (w : world) (r : response) :
  scraper_get (gets w) u = Returns r ->
  _request scraper_get u w =
  (count_get w,
   if is_error_status (status_code r) then Raise (HTTPError (status_code r))
   else Ok r).
Proof.
  intros H. unfold _request, tenacity_retry.
  apply retry_loop_done; [now apply request_once_returns|].
  now destruct (is_error_status (status_code r)).
Qed.

End Request.

(** C7, as the code has it.  A response with a 4xx or 5xx status makes
    [_request] raise [HTTPError] at once, after one GET and without sleeping;
    a response with any other status, in particular every 2xx one, is
    returned unchanged. *)
Theorem request_status (scraper_get : nat -> string -> get_outcome)
    (u : string) (w : world) (r : response)
    (Hget : scraper_get (gets w) u = Returns r) :
  (400 <= status_code r < 600 ->
     _request scraper_get u w = (count_get w, Raise (HTTPError (status_code r)))) /\
  (~ 400 <= status_code r < 600 ->
     _request scraper_get u w = (count_get w, Ok r)) /\
  (200 <= status_code r < 300 ->
     _request scraper_get u w = (count_get w, Ok r)).
Proof.
  rewrite (request_returns scraper_get u w r Hget). unfold is_error_status.
  repeat split; intros H.
  - replace (400 <=? status_code r) with true by (symmetry; apply Z.leb_le; lia).
    replace (status_code r <? 600) with true by (symmetry; apply Z.ltb_lt; lia).
    reflexivity.
  - destruct (400 <=? status_code r) eqn:E1; [|reflexivity].
    destruct (status_code r <? 600) eqn:E2; [|reflexivity].
    apply Z.leb_le in E1. apply Z.ltb_lt in E2. lia.
  - replace (400 <=? status_code r) with false by (symmetry; apply Z.leb_gt; lia).
    reflexivity.
Qed.

Lemma request_status_witness :
  _request (always not_found) "https://audio.example/1.m4a" empty_world =
  (count_get empty_world, Raise (HTTPError 404)).
Proof.
  apply (request_status (always not_found) "https://audio.example/1.m4a"
           empty_world not_found eq_refl).
  simpl. lia.
Defined.

(** C7 as the claim words it fails for a status that is neither 2xx nor an
    error status: a 304 response is returned, nothing is raised. *)
Lemma request_returns_304 :
  ~ 200 <= status_code not_modified < 300 /\
  _request (always not_modified) "https://audio.example/1.m4a" empty_world =
  (count_get empty_world, Ok not_modified).
Proof. split; [simpl; lia | reflexivity]. Qed.

(** C2, as the code has it.  With the attempt ceiling 3, when the challenge
    error is raised on the first two attempts: a third attempt that succeeds
    makes the call return its response; a third attempt that raises the
    challenge error again makes the call fail with tenacity's [RetryError]
    that holds the challenge error.  Either way three GETs were issued and
    the loop slept twice for the fixed wait. *)
Theorem retry_scenarios (scraper_get : nat -> string -> get_outcome)
    (u : string) (w : world) (r : response)
    (H1 : scraper_get (gets w) u = Throws CloudflareChallengeError)
    (H2 : scraper_get (S (gets w)) u = Throws CloudflareChallengeError) :
  let w3 := {| fs := fs w; gets := 3 + gets w;
               idle := idle w + CLOUDFLARE_WAIT_TIME + CLOUDFLARE_WAIT_TIME |} in
  (scraper_get (S (S (gets w))) u = Returns r ->
   is_error_status (status_code r) = false ->
   _request scraper_get u w = (w3, Ok r)) /\
  (scraper_get (S (S (gets w))) u = Throws CloudflareChallengeError ->
   _request scraper_get u w = (w3, Raise (RetryError CloudflareChallengeError))).
Proof.
  intros w3. unfold _request, tenacity_retry. simpl Nat.pred.
  pose proof (request_once_throws scraper_get u w _ H1) as A1.
  pose proof (request_once_throws scraper_get u
                (add_idle CLOUDFLARE_WAIT_TIME (count_get w)) _ H2) as A2.
  rewrite (retry_loop_again _ _ _ _ _ _ _ A1 eq_refl).
  rewrite (retry_loop_again _ _ _ _ _ _ _ A2 eq_refl).
  split; intros H3.
  - intros Hok.
    pose proof (request_once_returns scraper_get u
      (add_idle CLOUDFLARE_WAIT_TIME
         (count_get (add_idle CLOUDFLARE_WAIT_TIME (count_get w)))) r H3) as A3.
    rewrite Hok in A3. rewrite (retry_loop_done _ _ _ _ _ _ _ A3 eq_refl).
    reflexivity.
  - pose proof (request_once_throws scraper_get u
      (add_idle CLOUDFLARE_WAIT_TIME
         (count_get (add_idle CLOUDFLARE_WAIT_TIME (count_get w)))) _ H3) as A3.
    rewrite (retry_loop_exhausted _ _ _ _ _ _ A3 eq_refl).
    reflexivity.
Qed.

Lemma retry_scenarios_witness :
  _request (challenged 2) "https://audio.example/1.m4a" empty_world =
  ({| fs := ∅; gets := 3; idle := 4 |}, Ok audio_ok).
Proof.
  apply (retry_scenarios (challenged 2) "https://audio.example/1.m4a"
           empty_world audio_ok eq_refl eq_refl); reflexivity.
Defined.

(** C2 as the claim words it fails in its second part: after three
    challenge errors the caller does not get the challenge error itself but
    the [RetryError] wrapping it. *)
Lemma exhausted_retries_raise_RetryError :
  snd (_request (challenged 3) "https://audio.example/1.m4a" empty_world) =
    Raise (RetryError CloudflareChallengeError) /\
  snd (_request (challenged 3) "https://audio.example/1.m4a" empty_world) <>
    Raise CloudflareChallengeError.
Proof. split; [reflexivity | discriminate]. Qed.

(** ** Choosing the cover *)

Lemma digit_facts (c : ascii) :
  Py.is_digit c = true ->
  Py.is_space c = false /\ Py.char_in c ".jpg" = false /\
  Ascii.eqb c "-" = false /\ Ascii.eqb c "+" = false.
Proof.
  destruct c as [[] [] [] [] [] [] [] []]; intros H;
    first [discriminate H | repeat split].
Qed.

Lemma rstrip_by_digits (p : ascii -> bool) (d : string) :
  (forall c, Py.is_digit c = true -> p c = false) ->
  all_digits d = true -> Py.rstrip_by p d = d.
Proof.
  intros Hp. induction d as [|c d IH]; [reflexivity|].
  simpl. intros [Hc Hd]%andb_true_iff. rewrite (IH Hd).
  destruct d; [now rewrite (Hp c Hc) | reflexivity].
Qed.

Lemma rstrip_by_append (p : ascii -> bool) (s t : string) :
  Py.rstrip_by p t = "" -> Py.rstrip_by p (s +:+ t) = Py.rstrip_by p s.
Proof.
  intros Ht. induction s as [|c s IH]; [exact Ht|].
  rewrite append_cons. simpl. now rewrite IH.
Qed.

Lemma parse_digits_value (d : string) (acc : Z) (seen : bool) :
  all_digits d = true -> d <> "" ->
  Py.parse_digits acc seen d = Some (digits_value acc d).
Proof.
  revert acc seen. induction d as [|c d IH]; intros acc seen; [easy|].
  simpl. intros [Hc Hd]%andb_true_iff _. rewrite Hc.
  destruct d as [|c' d']; [reflexivity|]. now apply IH.
Qed.

Lemma count_digits_all (d : string) :
  all_digits d = true -> Py.count_digits d = String.length d.
Proof.
  induction d as [|c d IH]; [reflexivity|].
  simpl. intros [Hc Hd]%andb_true_iff. now rewrite Hc, (IH Hd).
Qed.

Lemma parse_limited_digits (d : string) :
  all_digits d = true -> d <> "" ->
  (String.length d <= Py.MAX_STR_DIGITS)%nat ->
  Py.parse_limited d = Some (digits_value 0 d).
Proof.
  intros Hd Hne Hlen. unfold Py.parse_limited.
  rewrite (count_digits_all d Hd).
  replace (Py.MAX_STR_DIGITS <? String.length d)%nat with false
    by (symmetry; apply Nat.ltb_ge; exact Hlen).
  now apply parse_digits_value.
Qed.

Lemma int_digits (d : string) :
  all_digits d = true -> d <> "" ->
  (String.length d <= Py.MAX_STR_DIGITS)%nat ->
  Py.int d = Some (digits_value 0 d).
Proof.
  intros Hd Hne Hlen. unfold Py.int.
  destruct d as [|c d']; [easy|].
  pose proof Hd as [Hc _]%andb_true_iff.
  destruct (digit_facts c Hc) as (Hsp & _ & Hminus & Hplus).
  cbn [Py.lstrip_by]. rewrite Hsp.
  rewrite rstrip_by_digits; [| intros ? H; now apply digit_facts in H | exact Hd].
  rewrite Hminus, Hplus. now apply parse_limited_digits.
Qed.

Lemma cover_key_bare (u : string) (n : Z) :
  bare_integer_jpg u n -> cover_key u = Some n.
Proof.
  intros (d & Hne & Hd & Hlen & Hseg & ->). unfold cover_key, Py.rstrip.
  rewrite Hseg, rstrip_by_append by reflexivity.
  rewrite rstrip_by_digits; [| intros ? H; now apply digit_facts in H | exact Hd].
  now apply int_digits.
Qed.

Example cover_key_400 : cover_key "https://img.example/cover/400.jpg" = Some 400.
Proof. reflexivity. Qed.
Example cover_key_dotted : cover_key "https://img.example/cover/400.png" = None.
Proof. reflexivity. Qed.

(** *** The sort *)

Lemma with_keys_total (key : string -> option Z) (xs : list string) :
  (forall x, x ∈ xs -> is_Some (key x)) ->
  with_keys key xs = Some ((fun x => (default 0 (key x), x)) <$> xs).
Proof.
  induction xs as [|x xs IH]; intros Hall; [reflexivity|].
  simpl. destruct (Hall x) as [k Hk]; [left|]. rewrite Hk.
  rewrite IH; [reflexivity|]. intros y Hy. apply Hall. now right.
Qed.

Lemma with_keys_fails (key : string -> option Z) (xs : list string) (x : string) :
  x ∈ xs -> key x = None -> with_keys key xs = None.
Proof.
  intros Hin Hx. induction Hin as [x xs | x y xs Hin IH]; simpl.
  - now rewrite Hx.
  - destruct (key y); [|reflexivity]. now rewrite IH.
Qed.

Lemma insert_desc_head (kx : Z * string) (sorted : list (Z * string)) :
  head (insert_desc kx sorted) =
  match head sorted with
  | None => Some kx
  | Some ky => if fst kx <? fst ky then Some ky else Some kx
  end.
Proof.
  destruct sorted as [|ky rest]; [reflexivity|].
  simpl. now destruct (fst kx <? fst ky).
Qed.

Lemma sort_desc_head (xs : list (Z * string)) :
  xs <> [] ->
  exists kx, head (sort_desc xs) = Some kx /\ kx ∈ xs /\
             forall ky, ky ∈ xs -> fst ky <= fst kx.
Proof.
  induction xs as [|x xs IH]; [easy|]. intros _.
  simpl. rewrite insert_desc_head.
  destruct xs as [|y ys].
  - exists x. simpl. split; [reflexivity|]. split; [left|].
    intros ky Hky. apply list_elem_of_singleton in Hky. subst. lia.
  - destruct IH as (m & Hm & Hin & Hmax); [easy|]. rewrite Hm.
    destruct (fst x <? fst m) eqn:E.
    + exists m. split; [reflexivity|]. split; [now right|].
      intros ky [->|Hky]%elem_of_cons; [apply Z.ltb_lt in E; lia | now apply Hmax].
    + exists x. split; [reflexivity|]. split; [left|].
      apply Z.ltb_ge in E.
      intros ky [->|Hky]%elem_of_cons; [lia | specialize (Hmax ky Hky); lia].
Qed.

Section Largest.

Variable set_iter : gset string -> list string.
Hypothesis set_iter_perm : forall X, set_iter X ≡ₚ elements X.

Lemma elem_of_set_iter (X : gset string) (x : string) : x ∈ set_iter X <-> x ∈ X.
Proof. now rewrite set_iter_perm, elem_of_elements. Qed.

Lemma largest_url_max (X : gset string) (w : world) :
  X <> ∅ ->
  (forall u, u ∈ X -> is_Some (cover_key u)) ->
  exists u k,
    largest_url set_iter X w = (w, Ok u) /\ u ∈ X /\ cover_key u = Some k /\
    forall v k', v ∈ X -> cover_key v = Some k' -> k' <= k.
Proof.
  intros Hne Hkeys.
  destruct (set_choose_L X Hne) as [x0 Hx0].
  set (keyed := (fun x => (default 0 (cover_key x), x)) <$> set_iter X).
  assert (Hwk : with_keys cover_key (set_iter X) = Some keyed).
  { apply with_keys_total. intros x Hx. apply Hkeys. now apply elem_of_set_iter. }
  assert (Hnil : keyed <> []).
  { intros E. apply fmap_nil_inv in E.
    apply elem_of_set_iter in Hx0. rewrite E in Hx0. now apply elem_of_nil in Hx0. }
  destruct (sort_desc_head keyed Hnil) as (kx & Hhead & Hin & Hmax).
  apply list_elem_of_fmap in Hin as (u & -> & Hu).
  apply elem_of_set_iter in Hu.
  destruct (Hkeys u Hu) as [k Hk].
  exists u, k. split; [|split; [exact Hu | split; [exact Hk|]]].
  - unfold largest_url, bind, sorted_reverse. rewrite Hwk. cbn.
    destruct (sort_desc keyed) as [|first rest]; [discriminate Hhead|].
    injection Hhead as ->. reflexivity.
  - intros v k' Hv Hk'.
    specialize (Hmax (default 0 (cover_key v), v)). simpl in Hmax.
    rewrite Hk, Hk' in Hmax. simpl in Hmax. apply Hmax.
    apply list_elem_of_fmap. exists v. split; [now rewrite Hk'|].
    now apply elem_of_set_iter.
Qed.

Lemma largest_url_fails (X : gset string) (w : world) (u : string) :
  u ∈ X -> cover_key u = None ->
  largest_url set_iter X w = (w, Raise ValueError).
Proof.
  intros Hu Hk. unfold largest_url, bind, sorted_reverse.
  rewrite (with_keys_fails cover_key (set_iter X) u); [reflexivity | | exact Hk].
  now apply elem_of_set_iter.
Qed.

End Largest.

Lemma elem_of_candidate_urls (b : book) (u : string) :
  u ∈ candidate_urls b <->
  exists s, s ∈ image_sources b /\ (u = src s \/ exists k, srcset s !! k = Some u).
Proof.
  unfold candidate_urls.
  assert (G : forall (ss : list source) (acc : gset string),
    u ∈ fold_left
          (fun urls source =>
             (urls ∪ {[src source]}) ∪ list_to_set (map_to_list (srcset source)).*2)
          ss acc <->
    u ∈ acc \/ exists s, s ∈ ss /\ (u = src s \/ exists k, srcset s !! k = Some u)).
  { induction ss as [|s ss IH]; intros acc; simpl.
    - split; [now left|]. intros [H|(s & Hs & _)]; [exact H|].
      now apply elem_of_nil in Hs.
    - rewrite IH, !elem_of_union, elem_of_singleton, elem_of_list_to_set,
        list_elem_of_fmap.
      split.
      + intros [[[H|H]|((k & v) & -> & H)]|(s' & Hs' & H)].
        * now left.
        * right. exists s. split; [left | now left].
        * right. exists s. split; [left|]. right. exists k.
          now apply elem_of_map_to_list in H.
        * right. exists s'. split; [now right | exact H].
      + intros [H|(s' & [->|Hs']%elem_of_cons & H)].
        * now left; left; left.
        * left. destruct H as [H|(k & H)]; [now left; right|].
          right. exists (k, u). split; [reflexivity|].
          now apply elem_of_map_to_list.
        * right. exists s'. now split. }
  rewrite G. split; [intros [H|H]; [now apply elem_of_empty in H | exact H]|].
  intros H. now right.
Qed.

(** C4, as the code has it.  For a non-empty set of candidate URLs that all
    end in a bare integer of at most 4300 digits followed by [.jpg], with
    distinct integers, the selection returns the URL with the largest
    integer, whatever the order in which the set is iterated: two iteration
    orders give the same URL. *)
Theorem largest_cover_selected (set_iter set_iter' : gset string -> list string)
    (X : gset string) (w : world)
    (Hiter : forall Y, set_iter Y ≡ₚ elements Y)
    (Hiter' : forall Y, set_iter' Y ≡ₚ elements Y)
    (Hne : X <> ∅)
    (Hbare : forall u, u ∈ X -> exists n, bare_integer_jpg u n)
    (Hdistinct : forall u v n, u ∈ X -> v ∈ X ->
                   bare_integer_jpg u n -> bare_integer_jpg v n -> u = v) :
  exists u n,
    largest_url set_iter X w = (w, Ok u) /\
    u ∈ X /\ bare_integer_jpg u n /\
    (forall v m, v ∈ X -> bare_integer_jpg v m -> m <= n) /\
    (forall v m, v ∈ X -> v <> u -> bare_integer_jpg v m -> m < n) /\
    largest_url set_iter' X w = (w, Ok u).
Proof.
  assert (Hkeys : forall u, u ∈ X -> is_Some (cover_key u)).
  { intros u Hu. destruct (Hbare u Hu) as [n Hn]. exists n. now apply cover_key_bare. }
  destruct (largest_url_max set_iter Hiter X w Hne Hkeys) as (u & k & Hrun & Hu & Hk & Hmax).
  destruct (largest_url_max set_iter' Hiter' X w Hne Hkeys)
    as (u' & k' & Hrun' & Hu' & Hk' & Hmax').
  destruct (Hbare u Hu) as [n Hn]. destruct (Hbare u' Hu') as [n' Hn'].
  pose proof (cover_key_bare u n Hn) as E. rewrite Hk in E. injection E as ->.
  pose proof (cover_key_bare u' n' Hn') as E. rewrite Hk' in E. injection E as ->.
  assert (Hle : forall v m, v ∈ X -> bare_integer_jpg v m -> m <= n).
  { intros v m Hv Hm. apply (Hmax v m Hv). now apply cover_key_bare. }
  assert (n' = n) as ->.
  { pose proof (Hle u' n' Hu' Hn').
    pose proof (Hmax' u n Hu (cover_key_bare u n Hn)). lia. }
  assert (u' = u) as -> by (now apply (Hdistinct u' u n)).
  exists u, n. repeat split; try assumption.
  intros v m Hv Hvu Hm. pose proof (Hle v m Hv Hm).
  destruct (Z.eq_dec m n) as [->|]; [|lia].
  now destruct Hvu; apply (Hdistinct v u n).
Qed.

Example candidate_urls_atomic_habits : candidate_urls atomic_habits = three_covers.
Proof. vm_compute. reflexivity. Qed.

Example largest_of_three :
  largest_url elements three_covers empty_world =
    (empty_world, Ok "https://img.example/cover/400.jpg") /\
  largest_url (fun X => reverse (elements X)) three_covers empty_world =
    (empty_world, Ok "https://img.example/cover/400.jpg").
Proof. split; vm_compute; reflexivity. Qed.

Lemma three_covers_bare (u : string) :
  u ∈ three_covers ->
  (u = "https://img.example/cover/100.jpg" /\ bare_integer_jpg u 100) \/
  (u = "https://img.example/cover/400.jpg" /\ bare_integer_jpg u 400) \/
  (u = "https://img.example/cover/250.jpg" /\ bare_integer_jpg u 250).
Proof.
  unfold three_covers. rewrite !elem_of_union, !elem_of_singleton.
  intros [[->| ->]| ->].
  - left. split; [reflexivity|]. exists "100".
    repeat split; first [discriminate | unfold Py.MAX_STR_DIGITS; simpl; lia].
  - right; left. split; [reflexivity|]. exists "400".
    repeat split; first [discriminate | unfold Py.MAX_STR_DIGITS; simpl; lia].
  - right; right. split; [reflexivity|]. exists "250".
    repeat split; first [discriminate | unfold Py.MAX_STR_DIGITS; simpl; lia].
Qed.

(** C4 as the claim words it fails for a name of more than 4300 digits: the
    name is a bare integer followed by [.jpg], and [int] refuses it, so the
    selection raises [ValueError]. *)
Lemma overlong_cover_name_raises :
  all_digits (ones 4301) = true /\
  String.length (ones 4301) = 4301%nat /\
  Py.last_item (Py.split "/" overlong_cover) = ones 4301 +:+ ".jpg" /\
  largest_url elements {[ overlong_cover ]} empty_world =
    (empty_world, Raise ValueError).
Proof. repeat split; vm_compute; reflexivity. Qed.

Lemma largest_cover_selected_witness :
  exists u n,
    largest_url elements three_covers empty_world = (empty_world, Ok u) /\
    u ∈ three_covers /\ bare_integer_jpg u n /\
    (forall v m, v ∈ three_covers -> bare_integer_jpg v m -> m <= n) /\
    (forall v m, v ∈ three_covers -> v <> u -> bare_integer_jpg v m -> m < n) /\
    largest_url (fun X => reverse (elements X)) three_covers empty_world =
      (empty_world, Ok u).
Proof.
  apply (largest_cover_selected elements (fun X => reverse (elements X))
           three_covers empty_world).
  - reflexivity.
  - intros Y. apply reverse_Permutation.
  - intros E. assert (H : "https://img.example/cover/100.jpg" ∈ three_covers)
      by (unfold three_covers; set_solver).
    rewrite E in H. now apply elem_of_empty in H.
  - intros u Hu.
    destruct (three_covers_bare u Hu) as [[_ H]|[[_ H]|[_ H]]]; eauto.
  - intros u v n Hu Hv Bu Bv.
    apply cover_key_bare in Bu, Bv.
    destruct (three_covers_bare u Hu) as [[-> _]|[[-> _]|[-> _]]];
      destruct (three_covers_bare v Hv) as [[-> _]|[[-> _]|[-> _]]];
      first [reflexivity | vm_compute in Bu; vm_compute in Bv; congruence].
Defined.

(** ** What the writers do to the file system *)

Lemma touches_only_ret {A} (p : string) (a : A) : touches_only p (ret a).
Proof. now intros w q _. Qed.

Lemma touches_only_raise {A} (p : string) (e : exn) : touches_only p (raise (A:=A) e).
Proof. now intros w q _. Qed.

Lemma touches_only_assert (p : string) (cond : bool) : touches_only p (assert cond).
Proof. destruct cond; [apply touches_only_ret | apply touches_only_raise]. Qed.

Lemma touches_only_bind {A B} (p : string) (m : M A) (k : A -> M B) :
  touches_only p m -> (forall a, touches_only p (k a)) -> touches_only p (bind m k).
Proof.
  intros Hm Hk w q Hq. unfold bind. specialize (Hm w q Hq).
  destruct (m w) as [w1 [a|e]]; simpl in *; [|exact Hm].
  now rewrite (Hk a w1 q Hq).
Qed.

Lemma touches_only_store {A} (p : string) (f : world -> blob) (a : A) :
  touches_only p (fun w => (store p (f w) w, Ok a)).
Proof. intros w q Hq. simpl. now rewrite lookup_insert_ne. Qed.

Lemma touches_only_sleep (p : string) (s : Z) : touches_only p (sleep s).
Proof. now intros w q _. Qed.

Lemma touches_only_retry_loop {A} (p : string) (selected : exn -> bool)
    (wait : Z) (body : M A) (more : nat) :
  touches_only p body -> touches_only p (retry_loop selected wait more body).
Proof.
  intros Hb. induction more as [|more IH]; intros w q Hq;
    specialize (Hb w q Hq); cbn [retry_loop];
    destruct (body w) as [w1 [a|e]]; simpl in *; try exact Hb;
    destruct (selected e); simpl; try exact Hb.
  unfold bind, sleep. rewrite (IH _ q Hq). exact Hb.
Qed.

Lemma touches_only_request (p : string) (net : nat -> string -> get_outcome)
    (u : string) : touches_only p (_request net u).
Proof.
  apply touches_only_retry_loop. intros w q _.
  unfold request_once, bind, get, raise_for_status.
  destruct (net (gets w) u) as [r|e]; [|reflexivity].
  now destruct (is_error_status (status_code r)).
Qed.

Lemma touches_only_set_m4a_meta_data (is_container : string -> bool)
    (p : string) (artist title album : Py.pyval) :
  touches_only p (set_m4a_meta_data is_container p artist title album).
Proof.
  intros w q Hq. destruct (fs w !! p) as [f|] eqn:E.
  - destruct (set_m4a_meta_data_cases is_container p artist title album w f E)
      as [[e ->]|(_ & _ & tags & _ & ->)]; [reflexivity|].
    simpl. now rewrite lookup_insert_ne.
  - unfold set_m4a_meta_data, bind, MP4. now rewrite E.
Qed.

(** A computation that touches only an absent path keeps every file. *)
Lemma touches_only_absent {A} (p : string) (m : M A) (w : world) :
  touches_only p m -> fs w !! p = None -> fs w ⊆ fs (m w).1.
Proof.
  intros Hm Hp. apply map_subseteq_spec. intros q f Hq.
  rewrite Hm; [exact Hq|]. intros ->. congruence.
Qed.

Section Skips.

Variable scraper_get : nat -> string -> get_outcome.
Variable set_iter : gset string -> list string.
Variable sanitize_filepath : string -> string.
Variable is_container : string -> bool.
Variable book_dir : string.

Lemma path_exists_present (p : string) (w : world) :
  is_Some (fs w !! p) -> path_exists p w = (w, Ok true).
Proof. intros H. unfold path_exists. now rewrite bool_decide_eq_true_2. Qed.

Lemma path_exists_absent (p : string) (w : world) :
  fs w !! p = None -> path_exists p w = (w, Ok false).
Proof.
  intros H. unfold path_exists. rewrite bool_decide_eq_false_2; [reflexivity|].
  rewrite H. now intros [? ?].
Qed.

Lemma download_book_text_skip (b : book) (chapters : list chapter) (w : world) :
  is_Some (fs w !! text_path sanitize_filepath book_dir b) ->
  download_book_text sanitize_filepath book_dir b chapters w = (w, Ok tt).
Proof.
  intros H. unfold download_book_text, bind. now rewrite path_exists_present.
Qed.

Lemma download_chapter_audio_skip (b : book) (c : chapter) (w : world) :
  is_Some (fs w !! audio_path book_dir c) ->
  download_chapter_audio scraper_get is_container book_dir b c w = (w, Ok tt).
Proof.
  intros H. unfold download_chapter_audio, bind. now rewrite path_exists_present.
Qed.

Lemma largest_url_world (X : gset string) (w : world) :
  (largest_url set_iter X w).1 = w.
Proof.
  unfold largest_url, bind, sorted_reverse.
  destruct (with_keys cover_key (set_iter X)) as [keyed|]; [|reflexivity].
  cbn. now destruct (snd <$> sort_desc keyed).
Qed.

Lemma download_book_cover_skip (b : book) (w : world) :
  is_Some (fs w !! cover_path book_dir) ->
  (download_book_cover scraper_get set_iter book_dir b w).1 = w.
Proof.
  intros H. unfold download_book_cover, bind.
  pose proof (largest_url_world (candidate_urls b) w) as Hw.
  destruct (largest_url set_iter (candidate_urls b) w) as [w1 [u|e]];
    simpl in Hw; subst w1; [|reflexivity].
  now rewrite path_exists_present.
Qed.

Lemma for_each_audio_skip (b : book) (chapters : list chapter) (w : world) :
  Forall (fun c => is_Some (fs w !! audio_path book_dir c)) chapters ->
  for_each (download_chapter_audio scraper_get is_container book_dir b) chapters w = (w, Ok tt).
Proof.
  induction 1 as [|c cs Hc _ IH]; [reflexivity|].
  cbn [for_each]. unfold bind at 1. now rewrite download_chapter_audio_skip.
Qed.

End Skips.

Section Growth.

Variable scraper_get : nat -> string -> get_outcome.
Variable set_iter : gset string -> list string.
Variable sanitize_filepath : string -> string.
Variable is_container : string -> bool.
Variable book_dir : string.

Lemma touches_only_write_bytes (p : string) (content : blob) :
  touches_only p (write_bytes p content).
Proof. apply (touches_only_store p (fun _ => content) tt). Qed.

Lemma touches_only_write_text (p : string) (t : string) :
  touches_only p (write_text p t).
Proof. apply (touches_only_store p (fun _ => {| payload := t; atoms := None |}) tt). Qed.

(** The part of [download_chapter_audio] after the existence check. *)
Lemma download_chapter_audio_absent (b : book) (c : chapter) (w : world) :
  fs w !! audio_path book_dir c = None ->
  download_chapter_audio scraper_get is_container book_dir b c w =
  (assert (Py.contains "m4a" (signed_audio_url c)) >>
   let* response := _request scraper_get (signed_audio_url c) in
   assert (status_code response =? 200) >>
   write_bytes (audio_path book_dir c) (content response) >>
   set_m4a_meta_data is_container (audio_path book_dir c)
     (Py.PyStr (author b)) (Py.PyStr (action_title c)) (Py.PyStr (title b))) w.
Proof.
  intros H. unfold download_chapter_audio. unfold bind at 1.
  now rewrite path_exists_absent.
Qed.

Lemma download_book_text_grows (b : book) (chapters : list chapter) (w : world) :
  fs w ⊆ fs (download_book_text sanitize_filepath book_dir b chapters w).1.
Proof.
  destruct (fs w !! text_path sanitize_filepath book_dir b) eqn:E.
  - now rewrite download_book_text_skip.
  - unfold download_book_text, bind. rewrite path_exists_absent by exact E.
    apply (touches_only_absent (text_path sanitize_filepath book_dir b));
      [apply touches_only_write_text | exact E].
Qed.

Lemma download_chapter_audio_grows (b : book) (c : chapter) (w : world) :
  fs w ⊆ fs (download_chapter_audio scraper_get is_container book_dir b c w).1.
Proof.
  destruct (fs w !! audio_path book_dir c) eqn:E.
  - now rewrite download_chapter_audio_skip.
  - rewrite download_chapter_audio_absent by exact E.
    apply (touches_only_absent (audio_path book_dir c)); [|exact E].
    apply touches_only_bind; [apply touches_only_assert | intros _].
    apply touches_only_bind; [apply touches_only_request | intros r].
    apply touches_only_bind; [apply touches_only_assert | intros _].
    apply touches_only_bind; [apply touches_only_write_bytes | intros _].
    apply touches_only_set_m4a_meta_data.
Qed.

Lemma download_book_cover_grows (b : book) (w : world) :
  fs w ⊆ fs (download_book_cover scraper_get set_iter book_dir b w).1.
Proof.
  destruct (fs w !! cover_path book_dir) eqn:E.
  - now rewrite download_book_cover_skip.
  - unfold download_book_cover. unfold bind at 1.
    pose proof (largest_url_world set_iter (candidate_urls b) w) as Hw.
    destruct (largest_url set_iter (candidate_urls b) w) as [w1 [u|e]];
      simpl in Hw; subst w1; [|reflexivity].
    unfold bind at 1. rewrite path_exists_absent by exact E.
    apply (touches_only_absent (cover_path book_dir)); [|exact E].
    apply touches_only_bind; [apply touches_only_assert | intros _].
    apply touches_only_bind; [apply touches_only_request | intros r].
    apply touches_only_bind; [apply touches_only_assert | intros _].
    apply touches_only_write_bytes.
Qed.

Lemma bind_grows {A B} (m : M A) (k : A -> M B) (w : world) :
  fs w ⊆ fs (m w).1 ->
  (forall a w1, fs w1 ⊆ fs (k a w1).1) ->
  fs w ⊆ fs (bind m k w).1.
Proof.
  intros Hm Hk. unfold bind. destruct (m w) as [w1 [a|e]]; simpl in *; [|exact Hm].
  etrans; [exact Hm | apply Hk].
Qed.

Lemma for_each_audio_grows (b : book) (chapters : list chapter) (w : world) :
  fs w ⊆ fs (for_each (download_chapter_audio scraper_get is_container book_dir b) chapters w).1.
Proof.
  revert w. induction chapters as [|c cs IH]; intros w; [reflexivity|].
  cbn [for_each]. apply bind_grows; [apply download_chapter_audio_grows|].
  intros _ w1. apply IH.
Qed.

Lemma run_downloads_grows (b : book) (chapters : list chapter) (w : world) :
  fs w ⊆ fs (run_downloads scraper_get set_iter sanitize_filepath is_container book_dir
               b chapters w).1.
Proof.
  unfold run_downloads.
  apply bind_grows; [apply download_book_text_grows | intros _ w1].
  apply bind_grows; [apply for_each_audio_grows | intros _ w2].
  apply download_book_cover_grows.
Qed.

End Growth.

(** C6.  Each of the three writers leaves the file system as it is when its
    target exists, and the whole download run keeps every file that existed
    before it, with its content: nothing is overwritten. *)
Theorem existing_files_are_kept
    (is_container : string -> bool)
    (scraper_get : nat -> string -> get_outcome)
    (set_iter : gset string -> list string)
    (sanitize_filepath : string -> string) (book_dir : string)
    (b : book) (chapters : list chapter) (c : chapter) (w : world) :
  (is_Some (fs w !! text_path sanitize_filepath book_dir b) ->
   fs (download_book_text sanitize_filepath book_dir b chapters w).1 = fs w) /\
  (is_Some (fs w !! audio_path book_dir c) ->
   fs (download_chapter_audio scraper_get is_container book_dir b c w).1 = fs w) /\
  (is_Some (fs w !! cover_path book_dir) ->
   fs (download_book_cover scraper_get set_iter book_dir b w).1 = fs w) /\
  (forall p f, fs w !! p = Some f ->
     fs (run_downloads scraper_get set_iter sanitize_filepath is_container book_dir
           b chapters w).1 !! p = Some f).
Proof.
  repeat split.
  - intros H. now rewrite download_book_text_skip.
  - intros H. now rewrite download_chapter_audio_skip.
  - intros H. now rewrite download_book_cover_skip.
  - intros p f. apply map_subseteq_spec, run_downloads_grows.
Qed.

(** C9.  [download_book_cover] sorts the candidate URLs before it looks for
    [cover.jpg]: when one candidate has no integer key the call raises
    [ValueError] in every world, also one where [cover.jpg] exists, and a
    run whose text and audio files all exist ends with that error; the text
    and audio writers return at once when their target exists. *)
Theorem cover_key_checked_before_existence
    (is_container : string -> bool)
    (scraper_get : nat -> string -> get_outcome)
    (set_iter : gset string -> list string)
    (sanitize_filepath : string -> string) (book_dir : string)
    (b : book) (chapters : list chapter) (c : chapter) (w : world) (u : string)
    (Hiter : forall X, set_iter X ≡ₚ elements X)
    (Hu : u ∈ candidate_urls b)
    (Hkey : cover_key u = None) :
  download_book_cover scraper_get set_iter book_dir b w = (w, Raise ValueError) /\
  (is_Some (fs w !! text_path sanitize_filepath book_dir b) ->
   download_book_text sanitize_filepath book_dir b chapters w = (w, Ok tt)) /\
  (is_Some (fs w !! audio_path book_dir c) ->
   download_chapter_audio scraper_get is_container book_dir b c w = (w, Ok tt)) /\
  (is_Some (fs w !! text_path sanitize_filepath book_dir b) ->
   Forall (fun c => is_Some (fs w !! audio_path book_dir c)) chapters ->
   run_downloads scraper_get set_iter sanitize_filepath is_container book_dir b chapters w =
     (w, Raise ValueError)).
Proof.
  assert (Hcover : download_book_cover scraper_get set_iter book_dir b w =
                   (w, Raise ValueError)).
  { unfold download_book_cover. unfold bind at 1.
    now rewrite (largest_url_fails set_iter Hiter (candidate_urls b) w u Hu Hkey). }
  split; [exact Hcover|]. split; [|split].
  - apply download_book_text_skip.
  - apply download_chapter_audio_skip.
  - intros Ht Ha. unfold run_downloads. unfold bind at 1.
    rewrite download_book_text_skip by exact Ht. unfold bind at 1.
    rewrite for_each_audio_skip by exact Ha. exact Hcover.
Qed.

Lemma existing_files_are_kept_witness :
  fs (run_downloads (always audio_ok) elements id every_body "d"
        atomic_habits [intro; habit_loop] old_cover_world).1 !! cover_path "d"
  = Some (plain "OLD").
Proof.
  apply (existing_files_are_kept every_body (always audio_ok) elements id "d"
           atomic_habits [intro; habit_loop] intro old_cover_world).
  reflexivity.
Defined.

Lemma cover_key_checked_before_existence_witness :
  is_Some (fs old_cover_world !! cover_path "d") /\
  download_book_cover (always audio_ok) elements "d" odd_cover_book old_cover_world =
    (old_cover_world, Raise ValueError).
Proof.
  split; [now exists (plain "OLD")|].
  apply (cover_key_checked_before_existence every_body (always audio_ok) elements id "d"
           odd_cover_book [] intro old_cover_world
           "https://img.example/cover/large.jpg").
  - reflexivity.
  - apply elem_of_candidate_urls. eexists. split; [left | now left].
  - reflexivity.
Defined.

(** ** The tags of a downloaded chapter *)

(** C1, as the code has it.  When [download_chapter_audio] downloads a
    chapter (the file was absent and the call returns), and the author, the
    item title and the chapter title are non-empty, the saved container has
    the author in the artist atom, the item title in the album atom and the
    chapter title in the title atom. *)
Theorem audio_tags_written
    (is_container : string -> bool)
    (scraper_get : nat -> string -> get_outcome) (book_dir : string)
    (b : book) (c : chapter) (w w' : world)
    (Hauthor : author b <> "") (Htitle : title b <> "")
    (Hchapter : action_title c <> "")
    (Habsent : fs w !! audio_path book_dir c = None)
    (Hrun : download_chapter_audio scraper_get is_container book_dir b c w = (w', Ok tt)) :
  exists f tags,
    fs w' !! audio_path book_dir c = Some f /\ atoms f = Some tags /\
    tags !! ART = Some (Py.PyStr (author b)) /\
    tags !! alb = Some (Py.PyStr (title b)) /\
    tags !! nam = Some (Py.PyStr (action_title c)).
Proof.
  rewrite download_chapter_audio_absent in Hrun by exact Habsent.
  unfold bind at 1 in Hrun.
  destruct (Py.contains "m4a" (signed_audio_url c)); [|discriminate Hrun].
  cbn [assert ret] in Hrun. unfold bind at 1 in Hrun.
  destruct (_request scraper_get (signed_audio_url c) w) as [w1 [r|e]];
    [|discriminate Hrun].
  unfold bind at 1 in Hrun.
  destruct (status_code r =? 200); [|discriminate Hrun].
  cbn [assert ret] in Hrun. unfold bind at 1 in Hrun. cbn [write_bytes] in Hrun.
  destruct (set_m4a_meta_data_cases is_container (audio_path book_dir c)
              (Py.PyStr (author b)) (Py.PyStr (action_title c))
              (Py.PyStr (title b))
              (store (audio_path book_dir c) (content r) w1) (content r))
    as [[e He]|(_ & _ & tags & Htags & Hsaved)];
    [simpl; apply lookup_insert_eq | rewrite He in Hrun; discriminate Hrun |].
  rewrite Hsaved in Hrun. injection Hrun as <-.
  destruct (set_tags_Ok _ _ _ _ _ Htags) as (Hart & Halb & Hnam & _).
  eexists _, tags. split; [simpl; apply lookup_insert_eq|]. split; [reflexivity|].
  rewrite Hart, Halb, Hnam.
  destruct (author b); [easy|]. destruct (title b); [easy|].
  destruct (action_title c); [easy|]. repeat split.
Qed.

Lemma audio_tags_written_witness :
  exists f tags,
    fs (download_chapter_audio (challenged 0) every_body "d" atomic_habits intro empty_world).1
      !! audio_path "d" intro = Some f /\
    atoms f = Some tags /\
    tags !! ART = Some (Py.PyStr "James Clear") /\
    tags !! alb = Some (Py.PyStr "Atomic Habits") /\
    tags !! nam = Some (Py.PyStr "Intro").
Proof.
  apply (audio_tags_written every_body (challenged 0) "d" atomic_habits intro empty_world);
    first [discriminate | reflexivity].
Defined.

(** C1 with the mapping of the claim fails: for the chapter [Intro] of
    [Atomic Habits] the album atom holds the item title, not the chapter
    title, and the title atom holds the chapter title, not the item title. *)
Lemma album_atom_holds_item_title :
  exists f tags,
    download_chapter_audio (challenged 0) every_body "d" atomic_habits intro empty_world
      = (store (audio_path "d" intro) f (count_get empty_world), Ok tt) /\
    atoms f = Some tags /\
    tags !! alb = Some (Py.PyStr (title atomic_habits)) /\
    tags !! alb <> Some (Py.PyStr (action_title intro)) /\
    tags !! nam = Some (Py.PyStr (action_title intro)) /\
    tags !! nam <> Some (Py.PyStr (title atomic_habits)).
Proof.
  eexists {| payload := "AUDIO"; atoms := Some _ |}, _.
  split; [vm_compute; reflexivity|]. split; [reflexivity|].
  repeat split; try (vm_compute; reflexivity); vm_compute; discriminate.
Qed.

(** * Further properties of the script *)

(** ** The request wrapper, in general *)

Section RequestLoop.

Variable scraper_get : nat -> string -> get_outcome.
Variable u : string.

Lemma request_once_outcome (w : world) :
  request_once scraper_get u w =
  (count_get w, outcome_of_get (scraper_get (gets w) u)).
Proof.
  unfold request_once, bind, get, raise_for_status, outcome_of_get.
  destruct (scraper_get (gets w) u) as [r|e]; [|reflexivity].
  now destruct (is_error_status (status_code r)).
Qed.

Lemma advance_step (j : nat) (w : world) :
  advance j (add_idle CLOUDFLARE_WAIT_TIME (count_get w)) = advance (S j) w.
Proof.
  unfold advance, add_idle, count_get. simpl. f_equal; lia.
Qed.

Lemma retry_loop_skip_challenges (j more : nat) (w : world) :
  (forall i, (i < j)%nat ->
     scraper_get (gets w + i) u = Throws CloudflareChallengeError) ->
  retry_loop is_challenge CLOUDFLARE_WAIT_TIME (j + more)
    (request_once scraper_get u) w =
  retry_loop is_challenge CLOUDFLARE_WAIT_TIME more
    (request_once scraper_get u) (advance j w).
Proof.
  revert w. induction j as [|j IH]; intros w Hc.
  - simpl plus. f_equal. unfold advance. destruct w; simpl. f_equal; lia.
  - pose proof (request_once_outcome w) as E.
    pose proof (Hc 0%nat ltac:(lia)) as H0. rewrite Nat.add_0_r in H0.
    rewrite H0 in E. simpl in E.
    change (S j + more)%nat with (S (j + more)).
    rewrite (retry_loop_again _ _ _ _ _ _ _ E eq_refl).
    rewrite IH; [now rewrite advance_step|].
    intros i Hi. simpl. rewrite <- (Hc (S i)) by lia. f_equal. lia.
Qed.

Lemma retry_loop_bounds (more : nat) (w : world) :
  exists n,
    let w' := (retry_loop is_challenge CLOUDFLARE_WAIT_TIME more
                 (request_once scraper_get u) w).1 in
    (n <= more)%nat /\ fs w' = fs w /\ gets w' = S (gets w + n) /\
    idle w' = idle w + CLOUDFLARE_WAIT_TIME * Z.of_nat n.
Proof.
  revert w. induction more as [|more IH]; intros w;
    cbn [retry_loop]; rewrite request_once_outcome;
    destruct (outcome_of_get (scraper_get (gets w) u)) as [r|e];
    cbn [retry_if_exception_type];
    try destruct (is_challenge e);
    try (exists 0%nat; simpl; repeat split; lia).
  destruct (IH (add_idle CLOUDFLARE_WAIT_TIME (count_get w)))
    as (n & Hn & F & G & I).
  exists (S n). unfold bind, sleep. cbn zeta in *.
  rewrite F, G, I. simpl fs. simpl gets. simpl idle.
  repeat split; lia.
Qed.

Lemma retry_loop_never_challenge (more : nat) (w : world) :
  (retry_loop is_challenge CLOUDFLARE_WAIT_TIME more
     (request_once scraper_get u) w).2 <> Raise CloudflareChallengeError.
Proof.
  revert w. induction more as [|more IH]; intros w;
    cbn [retry_loop]; rewrite request_once_outcome;
    destruct (outcome_of_get (scraper_get (gets w) u)) as [r|e]; simpl;
    try discriminate; destruct e; simpl; try discriminate.
  unfold bind, sleep. apply IH.
Qed.

End RequestLoop.

(** X1.  Whatever the network does, one call of [_request] issues at least
    one and at most three GETs, sleeps the fixed wait once for each GET after
    the first, and changes no file. *)
Theorem request_effort (scraper_get : nat -> string -> get_outcome)
    (u : string) (w : world) :
  let w' := (_request scraper_get u w).1 in
  fs w' = fs w /\
  (gets w < gets w' <= gets w + CLOUDFLARE_MAX_ATTEMPTS)%nat /\
  idle w' = idle w + CLOUDFLARE_WAIT_TIME * (Z.of_nat (gets w' - gets w) - 1).
Proof.
  destruct (retry_loop_bounds scraper_get u 2 w) as (n & Hn & F & G & I).
  cbn zeta in *. unfold _request, tenacity_retry, CLOUDFLARE_MAX_ATTEMPTS.
  simpl Nat.pred. rewrite F, G, I. repeat split; lia.
Qed.

(** X2.  [_request] never hands the challenge error itself to its caller:
    a challenge error is either retried or wrapped. *)
Theorem request_never_raises_challenge
    (scraper_get : nat -> string -> get_outcome) (u : string) (w : world) :
  (_request scraper_get u w).2 <> Raise CloudflareChallengeError.
Proof. apply (retry_loop_never_challenge scraper_get u 2 w). Qed.

(** X3.  The first attempt that does not raise the challenge error decides
    the call: after [j] challenged attempts ([j] at most 2), the outcome of
    attempt [j+1] - its response, an [HTTPError] for a 4xx or 5xx status, or
    any other exception of [scraper.get] - is the outcome of [_request],
    unwrapped, after [j+1] GETs and [j] waits. *)
Theorem request_first_unchallenged_attempt
    (scraper_get : nat -> string -> get_outcome) (u : string) (w : world)
    (j : nat)
    (Hj : (j <= 2)%nat)
    (Hchallenged : forall i, (i < j)%nat ->
       scraper_get (gets w + i)%nat u = Throws CloudflareChallengeError)
    (Hplain : scraper_get (gets w + j)%nat u <> Throws CloudflareChallengeError) :
  _request scraper_get u w =
  (count_get (advance j w), outcome_of_get (scraper_get (gets w + j)%nat u)).
Proof.
  unfold _request, tenacity_retry. simpl Nat.pred.
  replace 2%nat with (j + (2 - j))%nat by lia.
  rewrite retry_loop_skip_challenges by exact Hchallenged.
  apply retry_loop_done; [apply request_once_outcome|].
  simpl. destruct (scraper_get (gets w + j)%nat u) as [r|e]; simpl.
  - now destruct (is_error_status (status_code r)).
  - destruct e; try reflexivity. now destruct Hplain.
Qed.

Lemma request_first_unchallenged_attempt_witness :
  _request (challenged 1) "https://audio.example/1.m4a" empty_world =
    ({| fs := ∅; gets := 2; idle := 2 |}, Ok audio_ok) /\
  _request unreachable "https://audio.example/1.m4a" empty_world =
    ({| fs := ∅; gets := 1; idle := 0 |}, Raise ConnectionError).
Proof.
  split.
  - apply (request_first_unchallenged_attempt (challenged 1)
             "https://audio.example/1.m4a" empty_world 1).
    + lia.
    + intros i Hi. assert (i = 0%nat) as -> by lia. reflexivity.
    + discriminate.
  - apply (request_first_unchallenged_attempt unreachable
             "https://audio.example/1.m4a" empty_world 0).
    + lia.
    + intros i Hi. lia.
    + discriminate.
Defined.

(** ** The tagger, in general *)

Lemma set_tags_Ok_any (artist title album : Py.pyval)
    (t t' u : gmap string Py.pyval) :
  set_tags artist title album t = Ok t' ->
  exists u', set_tags artist title album u = Ok u'.
Proof.
  unfold set_tags, and_then, setitem.
  destruct (Py.truthy artist), (Py.truthy title), (Py.truthy album);
    destruct artist, title, album; intros E; try discriminate E; now eexists.
Qed.

Lemma set_tags_twice (artist title album : Py.pyval)
    (t t' : gmap string Py.pyval) :
  set_tags artist title album t = Ok t' ->
  set_tags artist title album t' = Ok t'.
Proof.
  intros E. destruct (set_tags_Ok_any artist title album t t' t' E) as [u E'].
  rewrite E'. f_equal. apply map_eq. intros k.
  destruct (set_tags_Ok _ _ _ _ _ E) as (A1 & B1 & C1 & D1).
  destruct (set_tags_Ok _ _ _ _ _ E') as (A2 & B2 & C2 & D2).
  destruct (decide (k = ART)) as [->|H1];
    [rewrite A2, A1; now destruct (Py.truthy artist)|].
  destruct (decide (k = alb)) as [->|H2];
    [rewrite B2, B1; now destruct (Py.truthy title)|].
  destruct (decide (k = nam)) as [->|H3];
    [rewrite C2, C1; now destruct (Py.truthy album)|].
  now apply D2.
Qed.

Lemma set_tags_not_empty (artist title album : Py.pyval)
    (t t' : gmap string Py.pyval) :
  Py.truthy artist || Py.truthy title || Py.truthy album = true ->
  set_tags artist title album t = Ok t' -> t' <> ∅.
Proof.
  intros Hv E ->. destruct (set_tags_Ok _ _ _ _ _ E) as (A & B & C & _).
  rewrite lookup_empty in A, B, C.
  destruct (Py.truthy artist); [discriminate A|].
  destruct (Py.truthy title); [discriminate B|].
  destruct (Py.truthy album); [discriminate C | discriminate Hv].
Qed.

Lemma store_store (p : string) (f g : blob) (w : world) :
  store p g (store p f w) = store p g w.
Proof. unfold store. simpl. now rewrite insert_insert_eq. Qed.

(** X4.  Tagging sends no request and touches no other file.  When it
    returns, the file has the payload it had and every atom of its tag table
    other than the artist, album and title atoms as it was; when it raises,
    nothing at all has changed. *)
Theorem tagger_keeps_the_rest
    (is_container : string -> bool) (filename : string)
    (artist title album : Py.pyval) (w : world) (f : blob)
    (Hfile : fs w !! filename = Some f) :
  let w' := (set_m4a_meta_data is_container filename artist title album w).1 in
  (forall q, q <> filename -> fs w' !! q = fs w !! q) /\
  gets w' = gets w /\
  match (set_m4a_meta_data is_container filename artist title album w).2 with
  | Ok _ =>
      exists tags,
        fs w' !! filename = Some {| payload := payload f; atoms := Some tags |} /\
        forall k, k <> ART -> k <> alb -> k <> nam ->
                  tags !! k = initial_tags f !! k
  | Raise _ => w' = w
  end.
Proof.
  cbn zeta.
  destruct (set_m4a_meta_data_cases is_container filename artist title album
              w f Hfile) as [[e ->]|(_ & _ & tags & Htags & ->)]; simpl.
  - now repeat split.
  - split; [intros q Hq; now apply lookup_insert_ne|]. split; [reflexivity|].
    exists tags. split; [apply lookup_insert_eq|].
    now destruct (set_tags_Ok _ _ _ _ _ Htags) as (_ & _ & _ & Hk).
Qed.

(** X5.  With no truthy argument (the defaults are [None]) the tagger assigns
    no atom.  On a container without tag table it saves an empty table, on
    one with a non-empty table it saves that table as it is; on a file that
    is no container, or whose table is empty, mutagen raises and nothing
    changes. *)
Theorem tagger_without_values
    (is_container : string -> bool) (filename : string)
    (artist title album : Py.pyval) (w : world) (f : blob)
    (Hfile : fs w !! filename = Some f)
    (Hartist : Py.truthy artist = false)
    (Htitle : Py.truthy title = false)
    (Halbum : Py.truthy album = false) :
  (is_container (payload f) = false \/ atoms f = Some ∅ ->
   set_m4a_meta_data is_container filename artist title album w =
     (w, Raise MutagenError)) /\
  (is_container (payload f) = true -> atoms f <> Some ∅ ->
   exists w',
     set_m4a_meta_data is_container filename artist title album w = (w', Ok tt) /\
     fs w' = <[filename := {| payload := payload f;
                              atoms := Some (initial_tags f) |}]> (fs w) /\
     gets w' = gets w /\ idle w' = idle w).
Proof.
  split.
  - intros [Hc|Ht].
    + now apply set_m4a_meta_data_not_container with f.
    + now apply set_m4a_meta_data_empty_table with f.
  - intros Hc Ht.
    rewrite (set_m4a_meta_data_run is_container filename artist title album
               w f Hfile Hc Ht).
    unfold set_tags, and_then. rewrite Hartist, Htitle, Halbum.
    eexists. split; [reflexivity|]. now repeat split.
Qed.

(** X6.  Tagging a file twice with the same values, one of them truthy,
    gives the same world as tagging it once. *)
Theorem tagging_twice_is_tagging_once
    (is_container : string -> bool) (filename : string)
    (artist title album : Py.pyval) (w : world) (f : blob)
    (Hfile : fs w !! filename = Some f)
    (Htable : atoms f <> Some ∅)
    (Hvalue : Py.truthy artist || Py.truthy title || Py.truthy album = true) :
  (set_m4a_meta_data is_container filename artist title album >>
   set_m4a_meta_data is_container filename artist title album) w =
  set_m4a_meta_data is_container filename artist title album w.
Proof.
  unfold bind at 1.
  destruct (set_m4a_meta_data_cases is_container filename artist title album
              w f Hfile) as [[e ->]|(Hc & _ & tags & Htags & ->)];
    [reflexivity|].
  rewrite (set_m4a_meta_data_run is_container filename artist title album _
             {| payload := payload f; atoms := Some tags |}).
  - cbn [initial_tags atoms payload].
    now rewrite (set_tags_twice _ _ _ _ _ Htags), store_store.
  - simpl. apply lookup_insert_eq.
  - exact Hc.
  - simpl. intros E. injection E as E.
    now apply (set_tags_not_empty artist title album (initial_tags f) tags).
Qed.

Lemma tagged_file_table : atoms tagged_file <> Some ∅.
Proof.
  intros E.
  pose proof (f_equal (fun o : option (gmap string Py.pyval) =>
                         match o with Some t => t !! nam | None => None end) E)
    as H.
  vm_compute in H. discriminate H.
Qed.

Lemma tagger_keeps_the_rest_witness :
  exists tags,
    fs (set_m4a_meta_data every_body "01.m4a" (Py.PyStr "A") (Py.PyStr "T")
          (Py.PyStr "B") tagged_world).1 !! "01.m4a"
      = Some {| payload := "AUDIO"; atoms := Some tags |} /\
    tags !! atom "wrt" = Some (Py.PyStr "Someone").
Proof.
  pose proof (tagger_keeps_the_rest every_body "01.m4a" (Py.PyStr "A")
                (Py.PyStr "T") (Py.PyStr "B") tagged_world tagged_file eq_refl)
    as (_ & _ & H).
  assert (E : (set_m4a_meta_data every_body "01.m4a" (Py.PyStr "A")
                 (Py.PyStr "T") (Py.PyStr "B") tagged_world).2 = Ok tt)
    by (vm_compute; reflexivity).
  rewrite E in H. destruct H as (tags & Hf & Hk).
  exists tags. split; [exact Hf|].
  rewrite (Hk (atom "wrt")) by discriminate. reflexivity.
Defined.

Lemma tagger_without_values_witness :
  exists w',
    set_m4a_meta_data every_body "01.m4a" Py.PyNone (Py.PyStr "") Py.PyNone
      one_file_world = (w', Ok tt) /\
    fs w' = <[ "01.m4a" := {| payload := "AUDIO"; atoms := Some ∅ |} ]>
              (fs one_file_world) /\
    gets w' = gets one_file_world /\ idle w' = idle one_file_world.
Proof.
  apply (tagger_without_values every_body "01.m4a" Py.PyNone (Py.PyStr "")
           Py.PyNone one_file_world untagged_file);
    first [reflexivity | discriminate].
Defined.

Lemma tagging_twice_is_tagging_once_witness :
  (set_m4a_meta_data every_body "01.m4a" (Py.PyStr "A") (Py.PyStr "T")
     (Py.PyStr "B") >>
   set_m4a_meta_data every_body "01.m4a" (Py.PyStr "A") (Py.PyStr "T")
     (Py.PyStr "B")) tagged_world =
  set_m4a_meta_data every_body "01.m4a" (Py.PyStr "A") (Py.PyStr "T")
    (Py.PyStr "B") tagged_world.
Proof.
  apply (tagging_twice_is_tagging_once every_body "01.m4a" (Py.PyStr "A")
           (Py.PyStr "T") (Py.PyStr "B") tagged_world tagged_file);
    first [reflexivity | exact tagged_file_table].
Defined.

(** ** Sequence numbers and file names *)

Lemma to_int_proper (n : Z) :
  Z.to_int n <> Decimal.Pos Decimal.Nil /\ Z.to_int n <> Decimal.Neg Decimal.Nil.
Proof.
  destruct n as [|p|p]; simpl; split; try discriminate;
    intros E; injection E as E; now apply DecimalPos.Unsigned.to_uint_nonnil in E.
Qed.

Lemma str_int_inj (a b : Z) : Py.str_int a = Py.str_int b -> a = b.
Proof.
  unfold Py.str_int. intros E.
  destruct (to_int_proper a) as [A1 A2]. destruct (to_int_proper b) as [B1 B2].
  pose proof (NilZero.isi (Z.to_int a) A1 A2) as Ia.
  pose proof (NilZero.isi (Z.to_int b) B1 B2) as Ib.
  rewrite E, Ib in Ia. injection Ia as Ia. now apply DecimalZ.to_int_inj.
Qed.

Lemma append_inv_tail (s1 s2 t : string) : s1 +:+ t = s2 +:+ t -> s1 = s2.
Proof.
  revert s2. induction s1 as [|c s1 IH]; intros [|c2 s2] E.
  - reflexivity.
  - apply (f_equal String.length) in E.
    rewrite append_cons, append_nil_l in E. simpl in E.
    rewrite length_append in E. lia.
  - apply (f_equal String.length) in E.
    rewrite append_cons, append_nil_l in E. simpl in E.
    rewrite length_append in E. lia.
  - rewrite !append_cons in E. injection E as -> E. f_equal. now apply IH.
Qed.

(** X7.  Chapters get the same audio path exactly when they have the same
    sequence number: distinct sequence numbers never share a file. *)
Theorem audio_path_inj (book_dir : string) (c1 c2 : chapter) :
  audio_path book_dir c1 = audio_path book_dir c2 <-> order_no c1 = order_no c2.
Proof.
  split; [|intros E; unfold audio_path; now rewrite E].
  unfold audio_path, path_join, audio_name, order_label. intros E.
  apply (inj (String.append book_dir)) in E.
  apply (inj (String.append "/")) in E.
  apply (inj (String.append "0")) in E.
  apply append_inv_tail in E. now apply str_int_inj.
Qed.

(** ** The audio writer, case by case *)

Section Audio.

Variable scraper_get : nat -> string -> get_outcome.
Variable is_container : string -> bool.
Variable book_dir : string.

Lemma request_fs (u : string) (w : world) :
  fs (_request scraper_get u w).1 = fs w.
Proof.
  destruct (retry_loop_bounds scraper_get u 2 w) as (n & _ & F & _).
  exact F.
Qed.

Lemma download_chapter_audio_run (b : book) (c : chapter) (w w' : world) :
  fs w !! audio_path book_dir c = None ->
  download_chapter_audio scraper_get is_container book_dir b c w = (w', Ok tt) ->
  exists w1 r tags,
    Py.contains "m4a" (signed_audio_url c) = true /\
    _request scraper_get (signed_audio_url c) w = (w1, Ok r) /\
    status_code r = 200 /\
    is_container (payload (content r)) = true /\
    w' = store (audio_path book_dir c)
           {| payload := payload (content r); atoms := Some tags |} w1.
Proof.
  intros Habsent Hrun.
  rewrite download_chapter_audio_absent in Hrun by exact Habsent.
  unfold bind at 1 in Hrun.
  destruct (Py.contains "m4a" (signed_audio_url c)); [|discriminate Hrun].
  cbn [assert ret] in Hrun. unfold bind at 1 in Hrun.
  destruct (_request scraper_get (signed_audio_url c) w) as [w1 [r|e]];
    [|discriminate Hrun].
  unfold bind at 1 in Hrun.
  destruct (status_code r =? 200) eqn:Hs; [|discriminate Hrun].
  cbn [assert ret] in Hrun. unfold bind at 1 in Hrun. cbn [write_bytes] in Hrun.
  destruct (set_m4a_meta_data_cases is_container (audio_path book_dir c)
              (Py.PyStr (author b)) (Py.PyStr (action_title c))
              (Py.PyStr (title b))
              (store (audio_path book_dir c) (content r) w1) (content r))
    as [[e He]|(Hc & _ & tags & _ & Hsaved)];
    [simpl; apply lookup_insert_eq | rewrite He in Hrun; discriminate Hrun |].
  rewrite Hsaved, store_store in Hrun. injection Hrun as <-.
  exists w1, r, tags. repeat split; try assumption. now apply Z.eqb_eq.
Qed.

Lemma download_chapter_audio_creates (b : book) (c : chapter) (w w' : world) :
  download_chapter_audio scraper_get is_container book_dir b c w = (w', Ok tt) ->
  is_Some (fs w' !! audio_path book_dir c).
Proof.
  intros Hrun. destruct (fs w !! audio_path book_dir c) as [f|] eqn:E.
  - rewrite download_chapter_audio_skip in Hrun by (now exists f).
    injection Hrun as <-. now exists f.
  - destruct (download_chapter_audio_run b c w w' E Hrun)
      as (w1 & r & tags & _ & _ & _ & _ & ->).
    simpl. rewrite lookup_insert_eq. now eexists.
Qed.

End Audio.

(** X8.  When the audio file is absent and the signed URL does not contain
    [m4a], [download_chapter_audio] fails its assertion before any request:
    the world is unchanged. *)
Theorem audio_url_without_m4a
    (is_container : string -> bool)
    (scraper_get : nat -> string -> get_outcome) (book_dir : string)
    (b : book) (c : chapter) (w : world)
    (Habsent : fs w !! audio_path book_dir c = None)
    (Hurl : Py.contains "m4a" (signed_audio_url c) = false) :
  download_chapter_audio scraper_get is_container book_dir b c w = (w, Raise AssertionError).
Proof.
  rewrite download_chapter_audio_absent by exact Habsent.
  unfold bind at 1. now rewrite Hurl.
Qed.

(** X9.  When the request for the audio fails, or answers with a status
    other than 200, [download_chapter_audio] raises (the exception of the
    request, or [AssertionError]) and no file is written. *)
Theorem audio_not_written_on_bad_response
    (is_container : string -> bool)
    (scraper_get : nat -> string -> get_outcome) (book_dir : string)
    (b : book) (c : chapter) (w w1 : world) (answer : result response)
    (Habsent : fs w !! audio_path book_dir c = None)
    (Hurl : Py.contains "m4a" (signed_audio_url c) = true)
    (Hrequest : _request scraper_get (signed_audio_url c) w = (w1, answer))
    (Hbad : forall r, answer = Ok r -> status_code r <> 200) :
  download_chapter_audio scraper_get is_container book_dir b c w =
    (w1, match answer with
         | Ok _ => Raise AssertionError
         | Raise e => Raise e
         end) /\
  fs w1 = fs w.
Proof.
  split.
  - rewrite download_chapter_audio_absent by exact Habsent.
    unfold bind at 1. rewrite Hurl. cbn [assert ret].
    unfold bind at 1. rewrite Hrequest.
    destruct answer as [r|e]; [|reflexivity].
    unfold bind at 1.
    destruct (status_code r =? 200) eqn:Hs; [|reflexivity].
    apply Z.eqb_eq in Hs. now destruct (Hbad r eq_refl).
  - pose proof (request_fs scraper_get (signed_audio_url c) w) as F.
    now rewrite Hrequest in F.
Qed.

(** X10.  A chapter that is downloaded is stored with the payload of the
    response; the request answered 200 for a URL containing [m4a], and no
    other file is touched. *)
Theorem audio_saved_verbatim
    (is_container : string -> bool)
    (scraper_get : nat -> string -> get_outcome) (book_dir : string)
    (b : book) (c : chapter) (w w' : world)
    (Habsent : fs w !! audio_path book_dir c = None)
    (Hrun : download_chapter_audio scraper_get is_container book_dir b c w = (w', Ok tt)) :
  exists w1 r f,
    Py.contains "m4a" (signed_audio_url c) = true /\
    _request scraper_get (signed_audio_url c) w = (w1, Ok r) /\
    status_code r = 200 /\
    fs w' !! audio_path book_dir c = Some f /\
    payload f = payload (content r) /\
    (forall q, q <> audio_path book_dir c -> fs w' !! q = fs w !! q) /\
    gets w' = gets w1 /\ idle w' = idle w1.
Proof.
  destruct (download_chapter_audio_run scraper_get is_container book_dir
              b c w w' Habsent Hrun)
    as (w1 & r & tags & Hurl & Hreq & Hs & _ & ->).
  pose proof (request_fs scraper_get (signed_audio_url c) w) as F.
  rewrite Hreq in F. simpl in F.
  eexists w1, r, _.
  split; [exact Hurl|]. split; [exact Hreq|]. split; [exact Hs|].
  split; [simpl; apply lookup_insert_eq|]. split; [reflexivity|].
  split; [|split; reflexivity].
  intros q Hq. simpl. rewrite lookup_insert_ne by congruence. now rewrite F.
Qed.

(** X11.  Two chapters with the same sequence number share one file: once
    the first is downloaded, the second is skipped - no request, no change -
    and its audio is never fetched. *)
Theorem duplicate_sequence_number_is_skipped
    (is_container : string -> bool)
    (scraper_get : nat -> string -> get_outcome) (book_dir : string)
    (b : book) (c1 c2 : chapter) (w w1 : world)
    (Hsame : order_no c1 = order_no c2)
    (Hfirst : download_chapter_audio scraper_get is_container book_dir b c1 w = (w1, Ok tt)) :
  download_chapter_audio scraper_get is_container book_dir b c2 w1 = (w1, Ok tt).
Proof.
  apply download_chapter_audio_skip.
  replace (audio_path book_dir c2) with (audio_path book_dir c1)
    by (unfold audio_path; now rewrite Hsame).
  exact (download_chapter_audio_creates scraper_get is_container book_dir b c1 w w1 Hfirst).
Qed.

Lemma audio_url_without_m4a_witness :
  download_chapter_audio (challenged 0) every_body "d" atomic_habits mp3_chapter empty_world =
  (empty_world, Raise AssertionError).
Proof.
  apply (audio_url_without_m4a every_body (challenged 0) "d" atomic_habits mp3_chapter
           empty_world); reflexivity.
Defined.

Lemma audio_not_written_on_bad_response_witness :
  download_chapter_audio (always not_modified) every_body "d" atomic_habits intro empty_world =
    (count_get empty_world, Raise AssertionError) /\
  fs (count_get empty_world) = fs empty_world.
Proof.
  apply (audio_not_written_on_bad_response every_body (always not_modified) "d"
           atomic_habits intro empty_world (count_get empty_world)
           (Ok not_modified)); try reflexivity.
  intros r E. injection E as <-. discriminate.
Defined.

Lemma audio_saved_verbatim_witness :
  exists w1 r f,
    Py.contains "m4a" (signed_audio_url intro) = true /\
    _request (challenged 0) (signed_audio_url intro) empty_world = (w1, Ok r) /\
    status_code r = 200 /\
    fs (download_chapter_audio (challenged 0) every_body "d" atomic_habits intro
          empty_world).1 !! audio_path "d" intro = Some f /\
    payload f = payload (content r) /\
    (forall q, q <> audio_path "d" intro ->
       fs (download_chapter_audio (challenged 0) every_body "d" atomic_habits intro
             empty_world).1 !! q = fs empty_world !! q) /\
    gets (download_chapter_audio (challenged 0) every_body "d" atomic_habits intro
            empty_world).1 = gets w1 /\
    idle (download_chapter_audio (challenged 0) every_body "d" atomic_habits intro
            empty_world).1 = idle w1.
Proof.
  apply (audio_saved_verbatim every_body (challenged 0) "d" atomic_habits intro empty_world);
    reflexivity.
Defined.

Lemma duplicate_sequence_number_is_skipped_witness :
  let w1 := (download_chapter_audio (challenged 0) every_body "d" atomic_habits intro
               empty_world).1 in
  download_chapter_audio (challenged 0) every_body "d" atomic_habits intro_again w1 =
  (w1, Ok tt).
Proof.
  apply (duplicate_sequence_number_is_skipped every_body (challenged 0) "d" atomic_habits
           intro intro_again empty_world); reflexivity.
Defined.

(** ** The text writer and the renderer *)

(** X12.  When the sanitized file name is a plain name, so that the text
    file lies directly in the book directory that the script has created,
    [download_book_text] returns without issuing a request.  Afterwards the
    text file exists: it holds what it held before if it was there, and the
    rendered document otherwise; no other file changes. *)
Theorem text_writer_outcome (sanitize_filepath : string -> string)
    (book_dir : string) (b : book) (chapters : list chapter) (w : world)
    (Hname : plain_name (sanitize_filepath (title b +:+ ".md")) = true) :
  exists w',
    download_book_text sanitize_filepath book_dir b chapters w = (w', Ok tt) /\
    gets w' = gets w /\ idle w' = idle w /\
    (forall q, q <> text_path sanitize_filepath book_dir b ->
       fs w' !! q = fs w !! q) /\
    fs w' !! text_path sanitize_filepath book_dir b =
      Some (match fs w !! text_path sanitize_filepath book_dir b with
            | Some f => f
            | None => {| payload := create_markdown_text b chapters;
                         atoms := None |}
            end).
Proof.
  destruct (fs w !! text_path sanitize_filepath book_dir b) as [f|] eqn:E.
  - exists w. rewrite download_book_text_skip by (now exists f).
    repeat split; try reflexivity. exact E.
  - eexists. unfold download_book_text, bind.
    rewrite path_exists_absent by exact E. split; [reflexivity|]. simpl.
    repeat split; try reflexivity.
    + intros q Hq. now apply lookup_insert_ne.
    + apply lookup_insert_eq.
Qed.

Lemma text_writer_outcome_witness :
  exists w',
    download_book_text id "d" atomic_habits [intro; habit_loop] empty_world
      = (w', Ok tt) /\
    gets w' = 0%nat /\
    fs w' !! "d/Atomic Habits.md" =
      Some {| payload := create_markdown_text atomic_habits [intro; habit_loop];
              atoms := None |}.
Proof.
  destruct (text_writer_outcome id "d" atomic_habits [intro; habit_loop]
              empty_world eq_refl) as (w' & Hrun & Hg & _ & _ & Hf).
  exists w'. split; [exact Hrun|]. split; [exact Hg | exact Hf].
Defined.

(** X13.  The renderer keeps the order of the chapter list and copies every
    body as it is: the section of a chapter - heading, empty line, body,
    empty line - stands between what the earlier chapters give and what the
    later ones give. *)
Theorem chapter_section_in_place (b : book) (before after : list chapter)
    (c : chapter) :
  create_markdown_text b (before ++ c :: after) =
    layout (["# " +:+ title b; "_" +:+ author b +:+ "_"] ++
            List.flat_map (fun c => [heading c; text c]) before) +:+
    chapter_section c +:+
    layout (List.flat_map (fun c => [heading c; text c]) after ++
            ["Source: " +:+ url b]) /\
  Py.contains (chapter_section c) (create_markdown_text b (before ++ c :: after))
    = true.
Proof.
  assert (E : create_markdown_text b (before ++ c :: after) =
    layout (["# " +:+ title b; "_" +:+ author b +:+ "_"] ++
            List.flat_map (fun c => [heading c; text c]) before) +:+
    chapter_section c +:+
    layout (List.flat_map (fun c => [heading c; text c]) after ++
            ["Source: " +:+ url b])).
  { rewrite create_markdown_text_layout. unfold blocks.
    rewrite flat_map_app.
    change (List.flat_map (fun c => [heading c; text c]) (c :: after))
      with ([heading c; text c] ++
            List.flat_map (fun c => [heading c; text c]) after).
    rewrite !layout_app. unfold chapter_section.
    change (layout [heading c; text c])
      with (heading c +:+ nl2 +:+ text c +:+ nl2 +:+ "").
    rewrite !append_assoc, ?append_nil_l. reflexivity. }
  split; [exact E|]. rewrite E. apply contains_append.
Qed.

(** ** The cover key *)

Lemma split_no_sep (sep : ascii) (t : string) :
  all_chars (fun c => negb (Ascii.eqb c sep)) t = true -> Py.split sep t = [t].
Proof.
  induction t as [|c t IH]; [reflexivity|].
  simpl. intros [Hc Ht]%andb_true_iff.
  apply negb_true_iff in Hc. rewrite Hc, (IH Ht). reflexivity.
Qed.

(** Appending text without separator extends the last segment. *)
Lemma split_append (sep : ascii) (u t : string) :
  all_chars (fun c => negb (Ascii.eqb c sep)) t = true ->
  exists segs seg,
    Py.split sep u = segs ++ [seg] /\
    Py.split sep (u +:+ t) = segs ++ [seg +:+ t].
Proof.
  intros Ht. induction u as [|c u (segs & seg & E1 & E2)].
  - exists [], "". split; [reflexivity|]. rewrite append_nil_l. now apply split_no_sep.
  - rewrite append_cons. simpl. rewrite E1, E2.
    destruct (Ascii.eqb c sep).
    + exists ("" :: segs), seg. split; reflexivity.
    + destruct segs as [|s0 segs].
      * exists [], (String c seg). split; reflexivity.
      * exists (String c s0 :: segs), seg. split; reflexivity.
Qed.

Lemma last_item_snoc (segs : list string) (seg : string) :
  Py.last_item (segs ++ [seg]) = seg.
Proof. apply List.last_last. Qed.

Lemma rstrip_by_all (p : ascii -> bool) (t : string) :
  all_chars p t = true -> Py.rstrip_by p t = "".
Proof.
  induction t as [|c t IH]; [reflexivity|].
  simpl. intros [Hc Ht]%andb_true_iff. now rewrite (IH Ht), Hc.
Qed.

Lemma all_chars_impl (p q : ascii -> bool) (t : string) :
  (forall c, p c = true -> q c = true) ->
  all_chars p t = true -> all_chars q t = true.
Proof.
  intros Hpq. induction t as [|c t IH]; [reflexivity|].
  simpl. intros [Hc Ht]%andb_true_iff. now rewrite (Hpq c Hc), (IH Ht).
Qed.

Lemma jpg_chars_no_slash (c : ascii) :
  Py.char_in c ".jpg" = true -> negb (Ascii.eqb c "/") = true.
Proof.
  destruct c as [[] [] [] [] [] [] [] []]; intros H;
    first [discriminate H | reflexivity].
Qed.

(** X14.  The sort key looks past every trailing [.], [j], [p] and [g], not
    only a [.jpg] suffix: appending such characters to a URL does not change
    its key. *)
Theorem cover_key_ignores_trailing_jpg_chars (u t : string)
    (Ht : all_chars (fun c => Py.char_in c ".jpg") t = true) :
  cover_key (u +:+ t) = cover_key u.
Proof.
  unfold cover_key, Py.rstrip.
  destruct (split_append "/" u t) as (segs & seg & E1 & E2).
  { revert Ht. apply all_chars_impl, jpg_chars_no_slash. }
  rewrite E1, E2, !last_item_snoc.
  now rewrite rstrip_by_append by (now apply rstrip_by_all).
Qed.

Lemma cover_key_ignores_trailing_jpg_chars_witness :
  cover_key ("https://img.example/cover/400" +:+ ".jpg") =
    cover_key "https://img.example/cover/400" /\
  cover_key ("https://img.example/cover/400.jpg" +:+ "g.p") =
    cover_key "https://img.example/cover/400.jpg".
Proof.
  split; apply cover_key_ignores_trailing_jpg_chars; reflexivity.
Defined.

(** *** Decimal names *)

Lemma string_of_uint_digits (d : Decimal.uint) :
  all_digits (NilEmpty.string_of_uint d) = true.
Proof. induction d; simpl; try reflexivity; exact IHd. Qed.

Lemma digits_value_acc (d : Decimal.uint) (acc : positive) :
  digits_value (Z.pos acc) (NilEmpty.string_of_uint d) =
  Z.pos (Pos.of_uint_acc d acc).
Proof.
  revert acc. induction d; intros acc;
    cbn [NilEmpty.string_of_uint digits_value Pos.of_uint_acc];
    try reflexivity; rewrite <- IHd; f_equal; vm_compute Py.digit_value; lia.
Qed.

Lemma digits_value_of_uint (d : Decimal.uint) :
  digits_value 0 (NilEmpty.string_of_uint d) = Z.of_uint d.
Proof.
  unfold Z.of_uint. induction d;
    cbn [NilEmpty.string_of_uint digits_value Pos.of_uint Z.of_N];
    try reflexivity; try exact IHd;
    rewrite <- digits_value_acc; reflexivity.
Qed.

Lemma all_digits_all_chars (s : string) :
  all_digits s = all_chars Py.is_digit s.
Proof. induction s as [|c s IH]; [reflexivity|]. simpl. now rewrite IH. Qed.

Lemma all_chars_append (p : ascii -> bool) (s t : string) :
  all_chars p s = true -> all_chars p t = true -> all_chars p (s +:+ t) = true.
Proof.
  intros Hs Ht. induction s as [|c s IH]; [exact Ht|].
  rewrite append_cons. simpl in *. apply andb_true_iff in Hs as [Hc Hs].
  now rewrite Hc, IH.
Qed.

Lemma digit_no_slash (c : ascii) :
  Py.is_digit c = true -> negb (Ascii.eqb c "/") = true.
Proof.
  destruct c as [[] [] [] [] [] [] [] []]; intros H;
    first [discriminate H | reflexivity].
Qed.

Lemma split_trailing_sep (sep : ascii) (pre : string) :
  exists s0 segs, Py.split sep (pre +:+ String sep "") = s0 :: segs ++ [""].
Proof.
  induction pre as [|c pre (s0 & segs & E)].
  - exists "", []. rewrite append_nil_l. simpl. now rewrite Ascii.eqb_refl.
  - rewrite append_cons. simpl. rewrite E. destruct (Ascii.eqb c sep).
    + now exists "", (s0 :: segs).
    + now exists (String c s0), segs.
Qed.

Lemma last_segment_after_slash (pre name : string) :
  all_chars (fun c => negb (Ascii.eqb c "/")) name = true ->
  Py.last_item (Py.split "/" (pre +:+ "/" +:+ name)) = name.
Proof.
  intros Hn. rewrite <- append_assoc.
  destruct (split_append "/" (pre +:+ "/") name Hn) as (segs & seg & E1 & E2).
  destruct (split_trailing_sep "/" pre) as (s0 & segs' & E3).
  rewrite E3 in E1. change (s0 :: segs' ++ [""]) with ((s0 :: segs') ++ [""]) in E1.
  apply app_inj_tail in E1 as [_ <-].
  now rewrite E2, last_item_snoc.
Qed.

Lemma str_int_digits (n : Z) :
  0 <= n ->
  Py.str_int n <> "" /\ all_digits (Py.str_int n) = true /\
  digits_value 0 (Py.str_int n) = n.
Proof.
  intros Hn. unfold Py.str_int. pose proof (DecimalZ.of_to n) as R.
  destruct (to_int_proper n) as [P _].
  destruct (Z.to_int n) as [d|d] eqn:E.
  - assert (Hd : NilZero.string_of_uint d = NilEmpty.string_of_uint d)
      by (destruct d; [now destruct P | reflexivity ..]).
    simpl NilZero.string_of_int. rewrite Hd. split; [|split].
    + destruct d; [now destruct P | discriminate ..].
    + apply string_of_uint_digits.
    + rewrite digits_value_of_uint. exact R.
  - simpl in R. assert (0 <= Z.of_uint d) by (unfold Z.of_uint; lia).
    assert (n = 0) as -> by lia. discriminate E.
Qed.

Lemma digit_value_range (c : ascii) :
  Py.is_digit c = true -> 0 <= Py.digit_value c <= 9.
Proof.
  destruct c as [[] [] [] [] [] [] [] []]; intros H;
    first [discriminate H | vm_compute; split; discriminate].
Qed.

Lemma digits_value_lower (s : string) (acc : Z) :
  0 <= acc -> all_digits s = true ->
  acc * 10 ^ Z.of_nat (String.length s) <= digits_value acc s.
Proof.
  revert acc. induction s as [|c s IH]; intros acc Hacc Hs.
  - simpl. lia.
  - simpl in Hs. apply andb_true_iff in Hs as [Hc Hs].
    pose proof (digit_value_range c Hc) as Hv.
    cbn [digits_value String.length]. rewrite Nat2Z.inj_succ, Z.pow_succ_r by lia.
    specialize (IH (10 * acc + Py.digit_value c) ltac:(lia) Hs).
    assert (0 <= 10 ^ Z.of_nat (String.length s)) by (apply Z.pow_nonneg; lia).
    nia.
Qed.

Lemma nzhead_leading (d : Decimal.uint) :
  match Decimal.nzhead d with
  | Decimal.D0 _ => False
  | _ => True
  end.
Proof. induction d; simpl; trivial. Qed.

Lemma to_uint_leading (p : positive) :
  exists c r,
    NilEmpty.string_of_uint (Pos.to_uint p) = String c r /\
    Py.is_digit c = true /\ 1 <= Py.digit_value c.
Proof.
  pose proof (DecimalPos.Unsigned.to_of (Pos.to_uint p)) as N.
  rewrite DecimalPos.Unsigned.of_to in N. simpl in N.
  pose proof (DecimalPos.Unsigned.to_uint_nonzero p) as Z0.
  pose proof (nzhead_leading (Pos.to_uint p)) as L.
  unfold Decimal.unorm in N.
  destruct (Decimal.nzhead (Pos.to_uint p)) eqn:E;
    first [now destruct Z0 | now destruct L | idtac];
    rewrite N; simpl; eexists _, _; (split; [reflexivity|]);
    split; first [reflexivity | vm_compute; discriminate].
Qed.

Lemma str_int_length (n : Z) (k : nat) :
  0 <= n < 10 ^ Z.of_nat k -> (1 <= k)%nat ->
  (String.length (Py.str_int n) <= k)%nat.
Proof.
  intros [Hn Hlt] Hk. destruct n as [|p|p]; [simpl; lia | | lia].
  destruct (str_int_digits (Z.pos p) Hn) as (_ & Hd & Hv).
  unfold Py.str_int in *. simpl Z.to_int in *.
  assert (Hs : NilZero.string_of_int (Decimal.Pos (Pos.to_uint p)) =
               NilEmpty.string_of_uint (Pos.to_uint p)).
  { simpl. destruct (Pos.to_uint p) eqn:E; try reflexivity.
    now apply DecimalPos.Unsigned.to_uint_nonnil in E. }
  rewrite Hs in *.
  destruct (to_uint_leading p) as (c & r & E & Hc & H1).
  rewrite E in *. simpl in Hd. apply andb_true_iff in Hd as [_ Hr].
  cbn [digits_value] in Hv.
  pose proof (digit_value_range c Hc) as Hrange.
  pose proof (digits_value_lower r (10 * 0 + Py.digit_value c) ltac:(lia) Hr) as Low.
  rewrite Hv in Low.
  assert (P : 0 < 10 ^ Z.of_nat (String.length r)) by (apply Z.pow_pos_nonneg; lia).
  assert (10 ^ Z.of_nat (String.length r) < 10 ^ Z.of_nat k) by nia.
  apply Z.pow_lt_mono_r_iff in H; [|lia|lia].
  simpl. lia.
Qed.

(** X15.  A cover whose file is named by a non-negative integer and [.jpg]
    has that integer as its sort key, whatever comes before the last
    slash.  (The integer has at most 4300 digits, the interpreter's default
    limit for [int].) *)
Theorem cover_key_of_numbered_jpg (pre : string) (n : Z) (Hn : 0 <= n)
    (Hlimit : n < 10 ^ 4300) :
  cover_key (pre +:+ "/" +:+ Py.str_int n +:+ ".jpg") = Some n.
Proof.
  destruct (str_int_digits n Hn) as (Hne & Hd & Hv).
  apply cover_key_bare. exists (Py.str_int n).
  split; [exact Hne|]. split; [exact Hd|].
  split; [apply str_int_length; [split; [exact Hn | exact Hlimit] | ]|].
  { unfold Py.MAX_STR_DIGITS. lia. }
  split; [|now rewrite Hv].
  apply last_segment_after_slash. apply all_chars_append; [|reflexivity].
  rewrite all_digits_all_chars in Hd. revert Hd.
  apply all_chars_impl, digit_no_slash.
Qed.

Lemma cover_key_of_numbered_jpg_witness :
  cover_key ("https://img.example/cover" +:+ "/" +:+ Py.str_int 1400 +:+ ".jpg")
  = Some 1400.
Proof.
  apply cover_key_of_numbered_jpg; [lia|].
  apply Z.ltb_lt. vm_compute. reflexivity.
Defined.

(** ** The cover writer, case by case *)

Lemma sort_desc_head_In (xs : list (Z * string)) (m : Z * string) :
  head (sort_desc xs) = Some m -> m ∈ xs.
Proof.
  destruct xs as [|x xs]; [discriminate|]. intros H.
  destruct (sort_desc_head (x :: xs)) as (kx & Hk & Hin & _); [easy|].
  rewrite H in Hk. now injection Hk as ->.
Qed.

Lemma sort_desc_head_first_max (before after : list (Z * string))
    (x : Z * string) :
  (forall y, y ∈ before -> fst y < fst x) ->
  (forall y, y ∈ after -> fst y <= fst x) ->
  head (sort_desc (before ++ x :: after)) = Some x.
Proof.
  intros Hb Ha. induction before as [|y before IH].
  - simpl. rewrite insert_desc_head.
    destruct (head (sort_desc after)) as [m|] eqn:E; [|reflexivity].
    apply sort_desc_head_In, Ha in E.
    now replace (fst x <? fst m) with false by (symmetry; apply Z.ltb_ge; lia).
  - simpl. rewrite insert_desc_head, IH.
    + pose proof (Hb y ltac:(left)) as Hy.
      now replace (fst y <? fst x) with true by (symmetry; apply Z.ltb_lt; lia).
    + intros z Hz. apply Hb. now right.
Qed.

(** X16.  Among URLs with the same largest key the sort keeps the one that
    the iteration over the set yields first: the selected URL is the first
    one, in iteration order, whose key is not exceeded. *)
Theorem first_largest_key_wins (set_iter : gset string -> list string)
    (X : gset string) (w : world) (before after : list string)
    (u : string) (k : Z)
    (Hiter : set_iter X = before ++ u :: after)
    (Hkey : cover_key u = Some k)
    (Hbefore : forall v, v ∈ before ->
                 exists k', cover_key v = Some k' /\ k' < k)
    (Hafter : forall v, v ∈ after ->
                exists k', cover_key v = Some k' /\ k' <= k) :
  largest_url set_iter X w = (w, Ok u).
Proof.
  unfold largest_url, bind, sorted_reverse. rewrite Hiter.
  rewrite with_keys_total.
  - cbn. rewrite fmap_app, fmap_cons.
    assert (H : head (sort_desc
                  (((fun x => (default 0 (cover_key x), x)) <$> before) ++
                   (default 0 (cover_key u), u) ::
                   ((fun x => (default 0 (cover_key x), x)) <$> after)))
                = Some (default 0 (cover_key u), u)).
    { apply sort_desc_head_first_max.
      - intros y (v & -> & Hv)%list_elem_of_fmap. simpl.
        destruct (Hbefore v Hv) as (k' & -> & Hlt). rewrite Hkey. simpl. lia.
      - intros y (v & -> & Hv)%list_elem_of_fmap. simpl.
        destruct (Hafter v Hv) as (k' & -> & Hle). rewrite Hkey. simpl. lia. }
    destruct (sort_desc _) as [|first rest]; [discriminate H|].
    injection H as ->. reflexivity.
  - intros x [Hx|[->|Hx]%elem_of_cons]%elem_of_app.
    + destruct (Hbefore x Hx) as (k' & -> & _). now eexists.
    + rewrite Hkey. now eexists.
    + destruct (Hafter x Hx) as (k' & -> & _). now eexists.
Qed.

Lemma first_largest_key_wins_witness :
  largest_url (fun _ => ["https://img.example/cover/7.jpg";
                         "https://img.example/cover/007.jpg"])
    tied_covers empty_world
    = (empty_world, Ok "https://img.example/cover/7.jpg") /\
  largest_url (fun _ => ["https://img.example/cover/007.jpg";
                         "https://img.example/cover/7.jpg"])
    tied_covers empty_world
    = (empty_world, Ok "https://img.example/cover/007.jpg").
Proof.
  split.
  - apply (first_largest_key_wins _ tied_covers empty_world []
             ["https://img.example/cover/007.jpg"] _ 7); try reflexivity.
    + intros v Hv. now apply elem_of_nil in Hv.
    + intros v Hv. apply list_elem_of_singleton in Hv as ->.
      exists 7. split; [reflexivity | lia].
  - apply (first_largest_key_wins _ tied_covers empty_world []
             ["https://img.example/cover/7.jpg"] _ 7); try reflexivity.
    + intros v Hv. now apply elem_of_nil in Hv.
    + intros v Hv. apply list_elem_of_singleton in Hv as ->.
      exists 7. split; [reflexivity | lia].
Defined.

Section Cover.

Variable scraper_get : nat -> string -> get_outcome.
Variable set_iter : gset string -> list string.
Variable book_dir : string.

Lemma download_book_cover_absent (b : book) (w : world) (u : string) :
  largest_url set_iter (candidate_urls b) w = (w, Ok u) ->
  fs w !! cover_path book_dir = None ->
  download_book_cover scraper_get set_iter book_dir b w =
  (assert (Py.endswith u ".jpg") >>
   let* response := _request scraper_get u in
   assert (status_code response =? 200) >>
   write_bytes (cover_path book_dir) (content response)) w.
Proof.
  intros Hu Habsent. unfold download_book_cover. unfold bind at 1.
  rewrite Hu. unfold bind at 1. now rewrite path_exists_absent.
Qed.

End Cover.

(** X17.  A book without cover sources makes [download_book_cover] raise
    [IndexError] in every world, also one where the cover exists: the sorted
    list of candidates is empty. *)
Theorem cover_without_sources
    (scraper_get : nat -> string -> get_outcome)
    (set_iter : gset string -> list string) (book_dir : string)
    (b : book) (w : world)
    (Hiter : forall X, set_iter X ≡ₚ elements X)
    (Hempty : image_sources b = []) :
  download_book_cover scraper_get set_iter book_dir b w = (w, Raise IndexError).
Proof.
  unfold download_book_cover, candidate_urls. rewrite Hempty. simpl fold_left.
  assert (E : set_iter ∅ = []).
  { apply Permutation_nil_r. rewrite Hiter. now rewrite elements_empty. }
  unfold bind at 1. unfold largest_url, bind, sorted_reverse. now rewrite E.
Qed.

Lemma cover_without_sources_witness :
  download_book_cover (always cover_ok) elements "d" coverless_book
    old_cover_world = (old_cover_world, Raise IndexError).
Proof.
  apply (cover_without_sources (always cover_ok) elements "d" coverless_book
           old_cover_world); reflexivity.
Defined.

(** X18.  When the cover is absent and the selected URL does not end in
    [.jpg], [download_book_cover] fails its assertion before any request:
    the world is unchanged. *)
Theorem cover_url_without_jpg
    (scraper_get : nat -> string -> get_outcome)
    (set_iter : gset string -> list string) (book_dir : string)
    (b : book) (w : world) (u : string)
    (Hlargest : largest_url set_iter (candidate_urls b) w = (w, Ok u))
    (Habsent : fs w !! cover_path book_dir = None)
    (Hsuffix : Py.endswith u ".jpg" = false) :
  download_book_cover scraper_get set_iter book_dir b w =
    (w, Raise AssertionError).
Proof.
  rewrite (download_book_cover_absent scraper_get set_iter book_dir b w u
             Hlargest Habsent).
  unfold bind at 1. now rewrite Hsuffix.
Qed.

Lemma cover_url_without_jpg_witness :
  download_book_cover (always cover_ok) elements "d" bare_cover_book empty_world
  = (empty_world, Raise AssertionError).
Proof.
  apply (cover_url_without_jpg (always cover_ok) elements "d" bare_cover_book
           empty_world "https://img.example/cover/400");
    vm_compute; reflexivity.
Defined.

(** X19.  When the cover is absent, the selected URL ends in [.jpg] and the
    request answers 200, [cover.jpg] is created with the response content as
    it is and no other file changes; when the request fails or answers with
    another status, an exception is raised and nothing is written. *)
Theorem cover_download_outcome
    (scraper_get : nat -> string -> get_outcome)
    (set_iter : gset string -> list string) (book_dir : string)
    (b : book) (w w1 : world) (u : string) (answer : result response)
    (Hlargest : largest_url set_iter (candidate_urls b) w = (w, Ok u))
    (Habsent : fs w !! cover_path book_dir = None)
    (Hsuffix : Py.endswith u ".jpg" = true)
    (Hrequest : _request scraper_get u w = (w1, answer)) :
  download_book_cover scraper_get set_iter book_dir b w =
    match answer with
    | Ok r => if status_code r =? 200
              then (store (cover_path book_dir) (content r) w1, Ok tt)
              else (w1, Raise AssertionError)
    | Raise e => (w1, Raise e)
    end /\
  fs w1 = fs w.
Proof.
  split.
  - rewrite (download_book_cover_absent scraper_get set_iter book_dir b w u
               Hlargest Habsent).
    unfold bind at 1. rewrite Hsuffix. cbn [assert ret].
    unfold bind at 1. rewrite Hrequest.
    destruct answer as [r|e]; [|reflexivity].
    unfold bind at 1. now destruct (status_code r =? 200).
  - pose proof (request_fs scraper_get u w) as F. now rewrite Hrequest in F.
Qed.

Lemma cover_download_outcome_witness :
  download_book_cover (always cover_ok) elements "d" atomic_habits empty_world =
    (store (cover_path "d") (plain "JPEG") (count_get empty_world), Ok tt) /\
  fs (count_get empty_world) = fs empty_world.
Proof.
  apply (cover_download_outcome (always cover_ok) elements "d" atomic_habits
           empty_world (count_get empty_world)
           "https://img.example/cover/400.jpg" (Ok cover_ok));
    vm_compute; reflexivity.
Defined.

(** ** The whole run *)

Lemma for_each_app {A} (body : A -> M unit) (xs ys : list A) (w : world) :
  for_each body (xs ++ ys) w = (for_each body xs >> for_each body ys) w.
Proof.
  revert w. induction xs as [|x xs IH]; intros w; [reflexivity|].
  cbn [for_each app]. unfold bind.
  destruct (body x w) as [w1 [[]|e]]; [|reflexivity].
  rewrite IH. reflexivity.
Qed.

Lemma is_Some_grows (m m' : gmap string blob) (p : string) :
  m ⊆ m' -> is_Some (m !! p) -> is_Some (m' !! p).
Proof.
  intros Hsub [f Hf]. exists f. now apply (map_subseteq_spec m m').
Qed.

Section Run.

Variable scraper_get : nat -> string -> get_outcome.
Variable set_iter : gset string -> list string.
Variable sanitize_filepath : string -> string.
Variable is_container : string -> bool.
Variable book_dir : string.

Lemma download_book_text_creates (b : book) (chapters : list chapter)
    (w : world) :
  is_Some (fs (download_book_text sanitize_filepath book_dir b chapters w).1
             !! text_path sanitize_filepath book_dir b).
Proof.
  destruct (fs w !! text_path sanitize_filepath book_dir b) as [f|] eqn:E.
  - rewrite download_book_text_skip by (now exists f). now exists f.
  - unfold download_book_text, bind. rewrite path_exists_absent by exact E.
    simpl. rewrite lookup_insert_eq. now eexists.
Qed.

Lemma download_book_text_ok (b : book) (chapters : list chapter) (w : world) :
  (download_book_text sanitize_filepath book_dir b chapters w).2 = Ok tt.
Proof.
  unfold download_book_text, bind, path_exists.
  now destruct (bool_decide _).
Qed.

Lemma for_each_audio_creates (b : book) (chapters : list chapter)
    (w w' : world) :
  for_each (download_chapter_audio scraper_get is_container book_dir b) chapters w
    = (w', Ok tt) ->
  Forall (fun c => is_Some (fs w' !! audio_path book_dir c)) chapters.
Proof.
  revert w. induction chapters as [|c cs IH]; intros w Hrun; [constructor|].
  cbn [for_each] in Hrun. unfold bind at 1 in Hrun.
  destruct (download_chapter_audio scraper_get is_container book_dir b c w)
    as [w1 [[]|e]] eqn:Hc; [|discriminate Hrun].
  constructor; [|now apply (IH w1)].
  apply (is_Some_grows (fs w1)).
  - pose proof (for_each_audio_grows scraper_get is_container book_dir b cs w1) as G.
    now rewrite Hrun in G.
  - now apply (download_chapter_audio_creates scraper_get is_container book_dir b c w).
Qed.

Lemma download_book_cover_ok_inv (b : book) (w w' : world) :
  download_book_cover scraper_get set_iter book_dir b w = (w', Ok tt) ->
  (exists u, largest_url set_iter (candidate_urls b) w = (w, Ok u)) /\
  is_Some (fs w' !! cover_path book_dir).
Proof.
  intros Hrun. unfold download_book_cover in Hrun. unfold bind at 1 in Hrun.
  pose proof (largest_url_world set_iter (candidate_urls b) w) as Hw.
  destruct (largest_url set_iter (candidate_urls b) w) as [w1 [u|e]];
    simpl in Hw; subst w1; [|discriminate Hrun].
  split; [now exists u|].
  unfold bind at 1 in Hrun.
  destruct (fs w !! cover_path book_dir) as [f|] eqn:E.
  - rewrite path_exists_present in Hrun by (now exists f).
    injection Hrun as <-. now exists f.
  - rewrite path_exists_absent in Hrun by exact E.
    unfold bind at 1 in Hrun.
    destruct (Py.endswith u ".jpg"); [|discriminate Hrun].
    cbn [assert ret] in Hrun. unfold bind at 1 in Hrun.
    destruct (_request scraper_get u w) as [w1 [r|e]]; [|discriminate Hrun].
    unfold bind at 1 in Hrun.
    destruct (status_code r =? 200); [|discriminate Hrun].
    cbn [assert ret write_bytes] in Hrun. injection Hrun as <-.
    simpl. rewrite lookup_insert_eq. now eexists.
Qed.

Lemma run_downloads_ok_inv (b : book) (chapters : list chapter) (w w' : world) :
  run_downloads scraper_get set_iter sanitize_filepath is_container book_dir b chapters w
    = (w', Ok tt) ->
  is_Some (fs w' !! text_path sanitize_filepath book_dir b) /\
  Forall (fun c => is_Some (fs w' !! audio_path book_dir c)) chapters /\
  is_Some (fs w' !! cover_path book_dir) /\
  exists wb u, largest_url set_iter (candidate_urls b) wb = (wb, Ok u).
Proof.
  intros Hrun. unfold run_downloads in Hrun. unfold bind at 1 in Hrun.
  pose proof (download_book_text_creates b chapters w) as Ht.
  destruct (download_book_text sanitize_filepath book_dir b chapters w)
    as [wa [[]|e]]; [|discriminate Hrun].
  unfold bind at 1 in Hrun.
  destruct (for_each (download_chapter_audio scraper_get is_container book_dir b) chapters wa)
    as [wb [[]|e]] eqn:Ha; [|discriminate Hrun].
  pose proof (for_each_audio_grows scraper_get is_container book_dir b chapters wa) as Ga.
  rewrite Ha in Ga.
  pose proof (download_book_cover_grows scraper_get set_iter book_dir b wb) as Gc.
  rewrite Hrun in Gc. simpl in Ht, Ga, Gc.
  destruct (download_book_cover_ok_inv b wb w' Hrun) as (Hu & Hc).
  split; [|split; [|split]].
  - apply (is_Some_grows (fs wb)); [exact Gc|].
    now apply (is_Some_grows (fs wa)).
  - apply for_each_audio_creates in Ha.
    eapply Forall_impl; [exact Ha|]. intros c. now apply is_Some_grows.
  - exact Hc.
  - destruct Hu as [u Hu]. now exists wb, u.
Qed.

End Run.

Lemma largest_url_ok_keys (set_iter : gset string -> list string)
    (X : gset string) (w w' : world) (u : string) :
  (forall Y, set_iter Y ≡ₚ elements Y) ->
  largest_url set_iter X w = (w', Ok u) ->
  X <> ∅ /\ forall v, v ∈ X -> is_Some (cover_key v).
Proof.
  intros Hiter Hrun. split.
  - intros ->. assert (E : set_iter ∅ = []).
    { apply Permutation_nil_r. rewrite Hiter. now rewrite elements_empty. }
    unfold largest_url, bind, sorted_reverse in Hrun. rewrite E in Hrun.
    discriminate Hrun.
  - intros v Hv. destruct (cover_key v) as [k|] eqn:K; [now exists k|].
    rewrite (largest_url_fails set_iter Hiter X w v Hv K) in Hrun.
    discriminate Hrun.
Qed.

(** X20.  The run stops at the first chapter whose audio download raises:
    the chapters after it and the cover are not attempted, and the run ends
    with that exception in the world the failed download left. *)
Theorem run_stops_at_first_failure
    (is_container : string -> bool)
    (scraper_get : nat -> string -> get_outcome)
    (set_iter : gset string -> list string)
    (sanitize_filepath : string -> string) (book_dir : string)
    (b : book) (before after : list chapter) (c : chapter)
    (w wa wb wc : world) (e : exn)
    (Htext : download_book_text sanitize_filepath book_dir b
               (before ++ c :: after) w = (wa, Ok tt))
    (Hbefore : for_each (download_chapter_audio scraper_get is_container book_dir b)
                 before wa = (wb, Ok tt))
    (Hfail : download_chapter_audio scraper_get is_container book_dir b c wb = (wc, Raise e)) :
  run_downloads scraper_get set_iter sanitize_filepath is_container book_dir b
    (before ++ c :: after) w = (wc, Raise e).
Proof.
  unfold run_downloads. unfold bind at 1. rewrite Htext.
  unfold bind at 1. rewrite for_each_app. unfold bind at 1. rewrite Hbefore.
  cbn [for_each]. unfold bind at 1. now rewrite Hfail.
Qed.

(** X21.  After a run that ends without exception the text file, the audio
    file of every chapter and the cover all exist. *)
Theorem successful_run_leaves_all_artifacts
    (is_container : string -> bool)
    (scraper_get : nat -> string -> get_outcome)
    (set_iter : gset string -> list string)
    (sanitize_filepath : string -> string) (book_dir : string)
    (b : book) (chapters : list chapter) (w w' : world)
    (Hrun : run_downloads scraper_get set_iter sanitize_filepath is_container book_dir
              b chapters w = (w', Ok tt)) :
  is_Some (fs w' !! text_path sanitize_filepath book_dir b) /\
  Forall (fun c => is_Some (fs w' !! audio_path book_dir c)) chapters /\
  is_Some (fs w' !! cover_path book_dir).
Proof.
  destruct (run_downloads_ok_inv scraper_get set_iter sanitize_filepath is_container
              book_dir b chapters w w' Hrun) as (Ht & Ha & Hc & _).
  now repeat split.
Qed.

(** X22.  A run that ended without exception can be repeated for nothing:
    the second run issues no request, changes nothing and ends without
    exception, whatever the network would answer and in whatever order the
    set of cover URLs is iterated this time. *)
Theorem second_run_changes_nothing
    (is_container : string -> bool)
    (scraper_get scraper_get' : nat -> string -> get_outcome)
    (set_iter set_iter' : gset string -> list string)
    (sanitize_filepath : string -> string) (book_dir : string)
    (b : book) (chapters : list chapter) (w w1 : world)
    (Hiter : forall X, set_iter X ≡ₚ elements X)
    (Hiter' : forall X, set_iter' X ≡ₚ elements X)
    (Hrun : run_downloads scraper_get set_iter sanitize_filepath is_container book_dir
              b chapters w = (w1, Ok tt)) :
  run_downloads scraper_get' set_iter' sanitize_filepath is_container book_dir
    b chapters w1 = (w1, Ok tt).
Proof.
  destruct (run_downloads_ok_inv scraper_get set_iter sanitize_filepath is_container
              book_dir b chapters w w1 Hrun) as (Ht & Ha & Hc & wb & u & Hu).
  destruct (largest_url_ok_keys set_iter (candidate_urls b) wb wb u Hiter Hu)
    as (Hne & Hkeys).
  destruct (largest_url_max set_iter' Hiter' (candidate_urls b) w1 Hne Hkeys)
    as (u' & k & Hu' & _).
  unfold run_downloads. unfold bind at 1.
  rewrite download_book_text_skip by exact Ht. unfold bind at 1.
  rewrite for_each_audio_skip by exact Ha.
  unfold download_book_cover. unfold bind at 1. rewrite Hu'.
  unfold bind at 1. now rewrite path_exists_present.
Qed.

Lemma run_stops_at_first_failure_witness :
  let wb := (for_each (download_chapter_audio (challenged 0) every_body "d" atomic_habits)
               [intro]
               (download_book_text id "d" atomic_habits
                  [intro; mp3_chapter; habit_loop] empty_world).1).1 in
  run_downloads (challenged 0) elements id every_body "d" atomic_habits
    ([intro] ++ mp3_chapter :: [habit_loop]) empty_world
  = (wb, Raise AssertionError) /\
  fs wb !! audio_path "d" habit_loop = None /\
  fs wb !! cover_path "d" = None.
Proof.
  split; [|split; vm_compute; reflexivity].
  eapply (run_stops_at_first_failure every_body (challenged 0) elements id "d"
            atomic_habits [intro] [habit_loop] mp3_chapter empty_world);
    vm_compute; reflexivity.
Defined.

Lemma successful_run_leaves_all_artifacts_witness :
  is_Some (fs after_first_run !! text_path id "d" atomic_habits) /\
  Forall (fun c => is_Some (fs after_first_run !! audio_path "d" c))
    [intro; habit_loop] /\
  is_Some (fs after_first_run !! cover_path "d").
Proof.
  apply (successful_run_leaves_all_artifacts every_body (challenged 0) elements id "d"
           atomic_habits [intro; habit_loop] empty_world).
  vm_compute. reflexivity.
Defined.

Lemma second_run_changes_nothing_witness :
  run_downloads unreachable (fun X => reverse (elements X)) id every_body "d"
    atomic_habits [intro; habit_loop] after_first_run
  = (after_first_run, Ok tt).
Proof.
  apply (second_run_changes_nothing every_body (challenged 0) unreachable elements
           (fun X => reverse (elements X)) id "d" atomic_habits
           [intro; habit_loop] empty_world).
  - reflexivity.
  - intros X. apply reverse_Permutation.
  - vm_compute. reflexivity.
Defined.
